(** * The Databricks relay for Claude Code: a shallow embedding

    The development follows the Python sources

    - [src/databricks_claude/proxy.py]: the credential provider
      ([get_databricks_token]), the health route ([health]) and the proxied
      route ([chat_completions]);
    - [src/databricks_coding_agent/cli.py]: instance discovery
      ([find_proxy_port]).

    Everything outside the program (process environment, clock, the
    [databricks] subprocess, the upstream gateway, the local sockets) is an
    explicit input; everything the program mutates (the token cache, the
    subprocesses it spawned, the requests it sent) is explicit state. *)

From Stdlib Require Import String Ascii List ZArith QArith Bool Lia.
From Stdlib Require Import DecimalString Lqa.
Import ListNotations.

Set Warnings "-register-all".

Local Open Scope string_scope.
Local Open Scope Z_scope.

(** ** Python values and the builtins the sources use *)

Module Py.

(** The values [json.loads] produces and [jsonify] consumes.  [JNull] is
    Python's [None]; [JObj] lists the items of a [dict] in insertion order.
    JSON numbers are finite decimal numerals: an integer literal is a Python
    [int], any other a [float], kept here as the rational it denotes (float
    rounding and the non-standard literals NaN and Infinity are not
    modelled). *)
Inductive json : Type :=
| JNull
| JBool (b : bool)
| JInt (z : Z)
| JFloat (q : Q)
| JStr (s : string)
| JArr (items : list json)
| JObj (items : list (string * json)).

(** Python exceptions, by the classes the [except] clauses tell apart:
    [requests.exceptions.Timeout] is a [RequestException], and every class
    here is an [Exception]. *)
Inductive exn_class : Type :=
| Timeout
| RequestException
| OtherException.

Record exn : Type := Exn { exn_cls : exn_class; exn_msg : string }.

Definition is_empty (s : string) : bool :=
  match s with EmptyString => true | String _ _ => false end.

(** Truth value of an object, as [if x:] and [x and y] test it. *)
Definition truthy (v : json) : bool :=
  match v with
  | JNull => false
  | JBool b => b
  | JInt z => negb (z =? 0)
  | JFloat q => negb (Qeq_bool q 0)
  | JStr s => negb (is_empty s)
  | JArr l => match l with [] => false | _ :: _ => true end
  | JObj d => match d with [] => false | _ :: _ => true end
  end.

(** [d.get(k)] on the items of a dict with string keys. *)
Fixpoint lookup {V : Type} (k : string) (d : list (string * V)) : option V :=
  match d with
  | [] => None
  | (k', v) :: rest => if String.eqb k k' then Some v else lookup k rest
  end.

(** [x.get(k, default)] for an arbitrary value [x]: a dict answers, anything
    else has no attribute [get] and raises [AttributeError]. *)
Definition get (x : json) (k : string) (default : json) : exn + json :=
  match x with
  | JObj d => inr (match lookup k d with Some v => v | None => default end)
  | _ => inl (Exn OtherException "object has no attribute 'get'")
  end.

(** [a == b] where [b] is a string: only an equal string is equal. *)
Definition eq_str (a : json) (b : string) : bool :=
  match a with
  | JStr s => String.eqb s b
  | _ => false
  end.

(** [s.replace(old, new)]: every non-overlapping occurrence of [old], found
    left to right, is replaced.  [skip] counts the characters of an
    occurrence still to be dropped. *)
Fixpoint replace_from (old new : string) (skip : nat) (s : string) : string :=
  match s with
  | EmptyString => EmptyString
  | String c rest =>
      match skip with
      | S k => replace_from old new k rest
      | O =>
          if String.prefix old s
          then new ++ replace_from old new (Nat.pred (String.length old)) rest
          else String c (replace_from old new O rest)
      end
  end.

(** With an empty [old], Python puts [new] before every character and at
    the end. *)
Fixpoint interleave (new s : string) : string :=
  match s with
  | EmptyString => new
  | String c rest => new ++ String c (interleave new rest)
  end.

Definition replace (old new s : string) : string :=
  if is_empty old then interleave new s else replace_from old new O s.

(** [old in s]. *)
Fixpoint occurs (old s : string) : bool :=
  String.prefix old s ||
  match s with
  | EmptyString => false
  | String _ rest => occurs old rest
  end.

(** [s.removeprefix(p)]: what "the value with its prefix removed" means. *)
Fixpoint drop (n : nat) (s : string) : string :=
  match n, s with
  | S k, String _ rest => drop k rest
  | _, _ => s
  end.

Definition removeprefix (p s : string) : string :=
  if String.prefix p s then drop (String.length p) s else s.

(** Header names compare without regard to ASCII case (Werkzeug's
    [EnvironHeaders], requests' [CaseInsensitiveDict]). *)
Definition lower_ascii (c : ascii) : ascii :=
  let n := nat_of_ascii c in
  if (Nat.leb 65 n && Nat.leb n 90)%bool then ascii_of_nat (n + 32) else c.

Fixpoint lower (s : string) : string :=
  match s with
  | EmptyString => EmptyString
  | String c rest => String (lower_ascii c) (lower rest)
  end.

Fixpoint headers_get (hs : list (string * string)) (name : string)
  : option string :=
  match hs with
  | [] => None
  | (n, v) :: rest =>
      if String.eqb (lower n) (lower name) then Some v else headers_get rest name
  end.

Definition headers_get_default (hs : list (string * string))
  (name default : string) : string :=
  match headers_get hs name with Some v => v | None => default end.

(** [b"".join(chunks)] *)
Definition join (chunks : list string) : string :=
  fold_right String.append EmptyString chunks.

(** [f"{x}"] for [x] a string or [None]. *)
Definition format_opt (x : option string) : string :=
  match x with Some v => v | None => "None" end.

(** [str(n)] for an [int]. *)
Definition str_int (z : Z) : string := NilZero.string_of_int (Z.to_int z).

(** [a < b] on timestamps. *)
Definition Qltb (a b : Q) : bool := negb (Qle_bool b a).

(** [float(z)] for an [int]: values that would round to 2^1024 raise
    [OverflowError]; below that the (rounded) value is kept exact. *)
Definition float_of_int (z : Z) : exn + Q :=
  if Z.abs z <? 2 ^ 1024 - 2 ^ 970
  then inr (inject_Z z)
  else inl (Exn OtherException "int too large to convert to float").

(** [float(x)] for the values [json.loads] can produce, strings apart (the
    source never passes one): lists, dicts and [None] raise [TypeError]. *)
Definition float (x : json) : exn + Q :=
  match x with
  | JBool b => inr (if b then 1%Q else 0%Q)
  | JInt z => float_of_int z
  | JFloat q => inr q
  | _ => inl (Exn OtherException "float() argument must be a string or a real number")
  end.

(** *** [json.dumps] as [jsonify] calls it

    Flask's JSON provider, outside debug mode: keys sorted, the compact
    separators, characters outside the printable ASCII range escaped.  A
    character of the model is a code point below 256.  The text of a float
    is left to [float_repr]. *)

Definition dquote : ascii := "034"%char.
Definition backslash : ascii := "092"%char.

Definition hex_digit (n : nat) : ascii :=
  if Nat.ltb n 10 then ascii_of_nat (48 + n) else ascii_of_nat (87 + n).

Definition escape_char (c : ascii) : string :=
  let n := nat_of_ascii c in
  let esc (x : ascii) := String backslash (String x EmptyString) in
  if Nat.eqb n 34 then esc dquote
  else if Nat.eqb n 92 then esc backslash
  else if Nat.eqb n 10 then esc "n"%char
  else if Nat.eqb n 13 then esc "r"%char
  else if Nat.eqb n 9 then esc "t"%char
  else if Nat.eqb n 8 then esc "b"%char
  else if Nat.eqb n 12 then esc "f"%char
  else if (Nat.ltb n 32 || Nat.ltb 126 n)%bool
  then String backslash
         ("u00" ++ String (hex_digit (Nat.div n 16))
                     (String (hex_digit (Nat.modulo n 16)) EmptyString))
  else String c EmptyString.

Fixpoint escape (s : string) : string :=
  match s with
  | EmptyString => EmptyString
  | String c rest => escape_char c ++ escape rest
  end.

Definition quote (s : string) : string :=
  String dquote (escape s ++ String dquote EmptyString).

Fixpoint insert_by_key (kv : string * string) (l : list (string * string))
  : list (string * string) :=
  match l with
  | [] => [kv]
  | kv' :: rest =>
      if String.leb (fst kv) (fst kv') then kv :: l
      else kv' :: insert_by_key kv rest
  end.

Definition sort_by_key (l : list (string * string)) : list (string * string) :=
  fold_right insert_by_key [] l.

Fixpoint dumps (float_repr : Q -> string) (j : json) : string :=
  match j with
  | JNull => "null"
  | JBool true => "true"
  | JBool false => "false"
  | JInt z => str_int z
  | JFloat q => float_repr q
  | JStr s => quote s
  | JArr l => "[" ++ String.concat "," (map (dumps float_repr) l) ++ "]"
  | JObj d =>
      let rendered := map (fun kv => (fst kv, dumps float_repr (snd kv))) d in
      "{" ++ String.concat ","
               (map (fun kv => quote (fst kv) ++ ":" ++ snd kv)
                    (sort_by_key rendered)) ++ "}"
  end.

End Py.

(** ** [databricks_claude/proxy.py] *)

Module Proxy.
Import Py.

(** *** The world outside the relay *)

(** [subprocess.run(..., capture_output=True, text=True, timeout=10)]
    either raises ([FileNotFoundError], [TimeoutExpired], ...) or completes.
    [stdout_json] is what [json.loads(result.stdout)] evaluates to, [inl]
    when it raises. *)
Record completed_process : Type := {
  returncode : Z;
  stdout_json : exn + json
}.

Inductive run_result : Type :=
| RunRaises (e : exn)
| RunCompleted (p : completed_process).

(** What [datetime.fromisoformat(s).timestamp()] does on a string. *)
Inductive iso_result : Type :=
| IsoTimestamp (t : Q)
| IsoValueError
| IsoOtherError (e : exn).

(** The response object of [requests]: [text] is the decoded body,
    [content] the raw one, [iter_content] the chunks in the order they
    arrive when the body is read as a stream. *)
Record upstream_response : Type := {
  status_code : Z;
  text : string;
  content : string;
  upstream_headers : list (string * string);
  iter_content : list string
}.

(** The keyword arguments of [http_requests.post]. *)
Record outbound_request : Type := {
  url : string;
  headers : list (string * string);
  json_body : json;
  stream : json;
  timeout : Z
}.

Inductive post_result : Type :=
| PostRaises (e : exn)
| PostReturns (r : upstream_response).

(** What one call sees of the outside: [os.environ.get("DATABRICKS_TOKEN")]
    ([None] when the variable is unset), the reading of [time.time()], the
    outcome of running an argument vector, the outcome of posting a request,
    and two library functions taken as given: the ISO-8601 parser and
    [str(x)] for a value [x] that is not a string. *)
Record world : Type := {
  environ_DATABRICKS_TOKEN : option string;
  time_time : Q;
  subprocess_run : list string -> run_result;
  requests_post : outbound_request -> post_result;
  fromisoformat_timestamp : string -> iso_result;
  str_other : json -> string
}.

(** The Flask request: its headers and what [request.get_json()] evaluates
    to ([inl] when it raises). *)
Record request : Type := {
  request_headers : list (string * string);
  get_json : exn + json
}.

(** *** The relay's own state *)

Record token_cache : Type := {
  access_token : json;
  expiry : Q
}.

(** The module globals, and the record of the effects performed so far:
    the argument vectors of the subprocesses run and the requests posted,
    oldest first. *)
Record state : Type := {
  DATABRICKS_HOST : string;
  _token_cache : token_cache;
  spawned : list (list string);
  posted : list outbound_request
}.

Definition initial_token_cache : token_cache :=
  {| access_token := JNull; expiry := 0%Q |}.

(** [run_proxy(host, ...)] rebinds the global before serving. *)
Definition run_proxy (host : string) (st : state) : state :=
  {| DATABRICKS_HOST := host;
     _token_cache := _token_cache st;
     spawned := spawned st;
     posted := posted st |}.

(** *** Computations that read and write the state and may raise *)

Definition M (A : Type) : Type := state -> (exn + A) * state.

Definition ret {A} (a : A) : M A := fun st => (inr a, st).

Definition bind {A B} (m : M A) (k : A -> M B) : M B :=
  fun st =>
    match m st with
    | (inr a, st') => k a st'
    | (inl e, st') => (inl e, st')
    end.

Definition lift {A} (r : exn + A) : M A := fun st => (r, st).

Definition gets {A} (f : state -> A) : M A := fun st => (inr (f st), st).

Definition modify (f : state -> state) : M unit := fun st => (inr tt, f st).

(** [try: m except Exception as e: handler e] *)
Definition try_except {A} (m : M A) (handler : exn -> M A) : M A :=
  fun st =>
    match m st with
    | (inr a, st') => (inr a, st')
    | (inl e, st') => handler e st'
    end.

Declare Scope relay_scope.
Delimit Scope relay_scope with relay.
Notation "x <- m ;; k" := (bind m (fun x => k))
  (at level 61, m at next level, right associativity) : relay_scope.
Notation "m ;; k" := (bind m (fun _ => k))
  (at level 61, right associativity) : relay_scope.

Local Open Scope relay_scope.

(** *** What Flask sends back *)

(** The body of a response: a document handed to [jsonify], a byte string,
    or a generator whose chunks are sent as they are produced. *)
Inductive body : Type :=
| BodyJson (j : json)
| BodyBytes (b : string)
| BodyStream (chunks : list string).

Record response : Type := {
  status : Z;
  response_body : body;
  content_type : string
}.

(** Werkzeug's [get_content_type]: a [text/] mimetype gets the charset. *)
Definition get_content_type (mimetype : string) : string :=
  if String.prefix "text/" mimetype then mimetype ++ "; charset=utf-8"
  else mimetype.

Definition jsonify (j : json) : response :=
  {| status := 200;
     response_body := BodyJson j;
     content_type := get_content_type "application/json" |}.

(** [return resp, code]: the response object the view hands to Flask.
    What of it reaches the caller is [get_wsgi_response] below. *)
Definition with_status (r : response) (code : Z) : response :=
  {| status := code;
     response_body := response_body r;
     content_type := content_type r |}.

(** [Response(body, mimetype=m)] *)
Definition Response_mimetype (b : body) (mimetype : string) : response :=
  {| status := 200;
     response_body := b;
     content_type := get_content_type mimetype |}.

(** [Response(body, status=s, content_type=c)] *)
Definition Response_content_type (b : body) (s : Z) (c : string) : response :=
  {| status := s; response_body := b; content_type := c |}.

(** The media type of a [Content-Type] value: what precedes the first
    parameter. *)
Fixpoint media_type (ct : string) : string :=
  match ct with
  | EmptyString => EmptyString
  | String c rest =>
      if Ascii.eqb c ";"%char then EmptyString else String c (media_type rest)
  end.

(** The bytes on the wire: [jsonify] ends the document with a newline. *)
Definition body_bytes (float_repr : Q -> string) (b : body) : string :=
  match b with
  | BodyJson j => dumps float_repr j ++ String "010"%char EmptyString
  | BodyBytes s => s
  | BodyStream chunks => join chunks
  end.

(** What Werkzeug puts on the wire for a response object
    ([get_app_iter] and [get_wsgi_headers], for a request that is not a
    [HEAD]): a response with status 1xx, 204 or 304 goes out without a
    body, and one with status 304 without its entity headers,
    [Content-Type] among them. *)
Definition sends_no_body (code : Z) : bool :=
  ((100 <=? code) && (code <? 200)) || (code =? 204) || (code =? 304).

Record wire_response : Type := {
  wire_status : Z;
  wire_content_type : option string;
  wire_body : string
}.

Definition get_wsgi_response (float_repr : Q -> string) (r : response)
  : wire_response :=
  {| wire_status := status r;
     wire_content_type :=
       if status r =? 304 then None else Some (content_type r);
     wire_body :=
       if sends_no_body (status r) then EmptyString
       else body_bytes float_repr (response_body r) |}.

Section Relay.

Variable w : world.

(** *** Token management *)

(** [os.environ.get("DATABRICKS_TOKEN")] followed by [if static_token:]:
    the variable counts when it holds a non-empty string. *)
Definition static_token : option string :=
  match environ_DATABRICKS_TOKEN w with
  | Some t => if is_empty t then None else Some t
  | None => None
  end.

Definition broker_argv (host : string) : list string :=
  ["databricks"; "auth"; "token"; "--host"; host].

(** [subprocess.run([...])], recorded in [spawned]. *)
Definition run (argv : list string) : M completed_process :=
  fun st =>
    let st' := {| DATABRICKS_HOST := DATABRICKS_HOST st;
                  _token_cache := _token_cache st;
                  spawned := spawned st ++ [argv];
                  posted := posted st |} in
    match subprocess_run w argv with
    | RunRaises e => (inl e, st')
    | RunCompleted p => (inr p, st')
    end.

Definition set_token_cache (c : token_cache) (st : state) : state :=
  {| DATABRICKS_HOST := DATABRICKS_HOST st;
     _token_cache := c;
     spawned := spawned st;
     posted := posted st |}.

(** Lines 92-102: the expiry of a fresh token. *)
Definition expiry_of (now : Q) (expiry_raw : json) : exn + Q :=
  match expiry_raw with
  | JStr s =>
      match fromisoformat_timestamp w (replace "Z" "+00:00" s) with
      | IsoTimestamp t => inr t
      | IsoValueError => inr (now + 3600)%Q
      | IsoOtherError e => inl e
      end
  | _ => if truthy expiry_raw then float expiry_raw else inr (now + 3600)%Q
  end.

(** Lines 84-106, the body of the [try]: the value is the token returned
    from inside it, or [None] when control falls out of it. *)
Definition refresh (now : Q) : M json :=
  host <- gets DATABRICKS_HOST ;;
  result <- run (broker_argv host) ;;
  if returncode result =? 0 then
    data <- lift (stdout_json result) ;;
    token <- lift (get data "access_token" JNull) ;;
    if truthy token then
      expiry_raw <- lift (get data "expiry" (JInt 0)) ;;
      expiry <- lift (expiry_of now expiry_raw) ;;
      modify (set_token_cache {| access_token := token; expiry := expiry |}) ;;
      ret token
    else ret JNull
  else ret JNull.

(** The cache test of line 80. *)
Definition cache_fresh (now : Q) (c : token_cache) : bool :=
  truthy (access_token c) && Qltb now (expiry c - 60)%Q.

(** The function holds [_token_lock] from the cache test to the end of the
    refresh; a call is one step of this sequential model. *)
Definition get_databricks_token : M json :=
  match static_token with
  | Some t => ret (JStr t)
  | None =>
      cache <- gets _token_cache ;;
      let now := time_time w in
      if cache_fresh now cache then ret (access_token cache)
      else
        try_except (refresh now)
          (fun e => (* log.warning *) ret JNull)
  end.

(** *** Routes *)

Definition health : response := jsonify (JObj [("status", JStr "ok")]).

(** [f"{x}"] for a token. *)
Definition format_token (v : json) : string :=
  match v with
  | JStr s => s
  | _ => str_other w v
  end.

Definition error_body (fields : list (string * json)) : json :=
  JObj [("error", JObj fields)].

(** [http_requests.post(...)], recorded in [posted]. *)
Definition post (o : outbound_request) : M upstream_response :=
  fun st =>
    let st' := {| DATABRICKS_HOST := DATABRICKS_HOST st;
                  _token_cache := _token_cache st;
                  spawned := spawned st;
                  posted := posted st ++ [o] |} in
    match requests_post w o with
    | PostRaises e => (inl e, st')
    | PostReturns r => (inr r, st')
    end.

(** Lines 135-144: the outbound headers. *)
Definition build_headers (req : request) (databricks_token : json)
  : list (string * string) :=
  let ANTHROPIC_TOKEN :=
    replace "Bearer " "" (headers_get_default (request_headers req) "Authorization" "") in
  let beta_headers := headers_get (request_headers req) "Anthropic-Beta" in
  [ ("Authorization", "Bearer " ++ format_token databricks_token);
    ("x-anthropic-api-key", ANTHROPIC_TOKEN);
    ("anthropic-beta", format_opt beta_headers);
    ("x-databricks-traffic-id", "testenv://liteswap/claude_max");
    ("Content-Type", "application/json") ].

(** The generator of lines 163-166. *)
Definition generate (r : upstream_response) : list string :=
  filter (fun chunk => negb (is_empty chunk)) (iter_content r).

(** Lines 125-171, the body of the [try]. *)
Definition chat_completions_try (req : request) : M response :=
  openai_request <- lift (get_json req) ;;
  is_streaming <- lift (get openai_request "stream" (JBool false)) ;;
  databricks_token <- get_databricks_token ;;
  if negb (truthy databricks_token) then
    ret (with_status
           (jsonify (error_body
              [("message", JStr "No Databricks token available. Set DATABRICKS_TOKEN or run `databricks auth login`.");
               ("type", JStr "config_error")]))
           500)
  else
    host <- gets DATABRICKS_HOST ;;
    r <- post {| url := host ++ "/serving-endpoints/anthropic/v1/messages";
                 headers := build_headers req databricks_token;
                 json_body := openai_request;
                 stream := is_streaming;
                 timeout := 180 |} ;;
    if negb (status_code r =? 200) then
      ret (with_status
             (jsonify (error_body
                [("message", JStr (text r));
                 ("type", JStr "databricks_error");
                 ("code", JInt (status_code r))]))
             (status_code r))
    else if truthy is_streaming then
      ret (Response_mimetype (BodyStream (generate r)) "text/event-stream")
    else
      ret (Response_content_type (BodyBytes (content r)) (status_code r)
             (headers_get_default (upstream_headers r) "Content-Type" "application/json")).

(** Lines 173-181: the three [except] clauses, tried in order. *)
Definition chat_completions_except (e : exn) : response :=
  match exn_cls e with
  | Timeout =>
      with_status
        (jsonify (error_body
           [("message", JStr "Request timed out"); ("type", JStr "timeout_error")]))
        504
  | RequestException =>
      with_status
        (jsonify (error_body
           [("message", JStr (exn_msg e)); ("type", JStr "connection_error")]))
        500
  | OtherException =>
      with_status
        (jsonify (error_body
           [("message", JStr (exn_msg e)); ("type", JStr "proxy_error")]))
        500
  end.

Definition chat_completions (req : request) (st : state) : response * state :=
  match chat_completions_try req st with
  | (inr resp, st') => (resp, st')
  | (inl e, st') => (chat_completions_except e, st')
  end.

End Relay.

End Proxy.

(** ** [databricks_coding_agent/cli.py]: instance discovery *)

Module Cli.
Import Py.

Definition PROXY_PORT : Z := 8000.

(** [urllib.request.urlopen(f"http://127.0.0.1:{port}/", timeout=2)]
    followed by [json.loads(resp.read())]: an exception from either (no
    listener, a timeout, a status outside 2xx, a body that is not JSON), or
    the parsed document. *)
Inductive probe_result : Type :=
| ProbeRaises (e : exn)
| ProbeData (data : json).

(** The machine the launcher runs on.  [bind port] creates a socket and
    binds it to [("127.0.0.1", port)]: [None] is an [OSError], [Some p] gives
    the port [getsockname()] reports, which for port 0 is the one the
    system picked. *)
Record machine : Type := {
  urlopen_health : Z -> probe_result;
  bind : Z -> option Z
}.

(** Lines 167-175: the test inside the first [try].  [data.get] on a
    document that is not an object raises and is caught like the rest. *)
Definition same_proxy (workspace : string) (p : probe_result) : bool :=
  match p with
  | ProbeRaises _ => false
  | ProbeData data =>
      match get data "status" JNull, get data "workspace" JNull with
      | inr st, inr ws => eq_str st "ok" && eq_str ws workspace
      | _, _ => false
      end
  end.

(** The result is [inl] when the last [bind], which no handler covers,
    raises. *)
Definition find_proxy_port (m : machine) (workspace : string)
  : exn + (Z * bool) :=
  if same_proxy workspace (urlopen_health m PROXY_PORT) then
    inr (PROXY_PORT, true)
  else
    match bind m PROXY_PORT with
    | Some _ => inr (PROXY_PORT, false)
    | None =>
        match bind m 0 with
        | Some port => inr (port, false)
        | None => inl (Exn OtherException "OSError")
        end
    end.

End Cli.

(** ** Concrete runs *)

Module Scenario.
Import Py Proxy.

Definition workspace : string := "https://adb-1234.cloud.databricks.com".


Definition no_cli : list string -> run_result :=
  fun _ => RunRaises (Exn OtherException "No such file or directory: 'databricks'").

Definition cli_exits (code : Z) : list string -> run_result :=
  fun _ => RunCompleted {| returncode := code;
                           stdout_json := inl (Exn OtherException "Expecting value") |}.

Definition cli_prints (document : json) : list string -> run_result :=
  fun _ => RunCompleted {| returncode := 0; stdout_json := inr document |}.

Definition gateway_answers (r : upstream_response) : outbound_request -> post_result :=
  fun _ => PostReturns r.

(** The worlds below never reach the two library functions: no expiry is
    an ISO string and every token is a string. *)
Definition make_world (token : option string) (now : Q)
  (cli : list string -> run_result)
  (gateway : outbound_request -> post_result) : world :=
  {| environ_DATABRICKS_TOKEN := token;
     time_time := now;
     subprocess_run := cli;
     requests_post := gateway;
     fromisoformat_timestamp := fun _ => IsoValueError;
     str_other := fun _ => EmptyString |}.


Definition event_stream : upstream_response :=
  {| status_code := 200;
     text := "data: a data: b";
     content := "data: a data: b";
     upstream_headers := [("Content-Type", "application/octet-stream")];
     iter_content := ["data: a "; ""; "data: b"] |}.

Definition fresh_state : state :=
  {| DATABRICKS_HOST := workspace;
     _token_cache := initial_token_cache;
     spawned := [];
     posted := [] |}.

Definition cached_state (token : string) (expires : Q) : state :=
  {| DATABRICKS_HOST := workspace;
     _token_cache := {| access_token := JStr token; expiry := expires |};
     spawned := [];
     posted := [] |}.

Definition messages (streaming : bool) : json :=
  JObj [("model", JStr "claude-sonnet"); ("stream", JBool streaming)].

Definition request_with (hs : list (string * string)) (streaming : bool) : request :=
  {| request_headers := hs; get_json := inr (messages streaming) |}.

Definition cli_request : request :=
  request_with [("Authorization", "Bearer sk-ant-api03-key");
                ("Anthropic-Beta", "prompt-caching-2024-07-31")] false.

Definition streaming_request : request :=
  request_with [("Authorization", "Bearer sk-ant-api03-key")] true.

Definition request_without_beta : request :=
  request_with [("Authorization", "Bearer sk-ant-api03-key")] false.

Definition anonymous_request : request :=
  request_with [("Accept", "application/json")] false.

Definition twice_bearer_request : request :=
  request_with [("Authorization", "Bearer sk-ant Bearer x")] false.

(** A relay for [workspace] listens on the preferred port, so binding
    that port fails; the system hands out port 49152. *)
Definition machine_with_relay : Cli.machine :=
  {| Cli.urlopen_health := fun _ =>
       Cli.ProbeData (JObj [("status", JStr "ok"); ("workspace", JStr workspace)]);
     Cli.bind := fun port => if port =? 0 then Some 49152 else None |}.

(** Nothing listens, every port is free. *)
Definition idle_machine : Cli.machine :=
  {| Cli.urlopen_health := fun _ =>
       Cli.ProbeRaises (Exn OtherException "Connection refused");
     Cli.bind := fun port => if port =? 0 then Some 49152 else Some port |}.

(** A launcher with [DATABRICKS_TOKEN] exported, streaming gateway. *)
Definition static_world : world :=
  make_world (Some "dapi-0123") 1000 no_cli (gateway_answers event_stream).


(** No override, and no [databricks] executable. *)
Definition oauth_world : world :=
  make_world None 1000 no_cli (gateway_answers event_stream).

(** No override, and [databricks auth token] prints a token that
    expires at 5000. *)
Definition logged_in_world : world :=
  make_world None 1000
    (cli_prints (JObj [("access_token", JStr "oauth-1"); ("expiry", JInt 5000)]))
    (gateway_answers event_stream).

(** No override, and [databricks auth token] exits with code 1. *)
Definition logged_out_world : world :=
  make_world None 1000 (cli_exits 1) (gateway_answers event_stream).

End Scenario.

(** ** Vocabulary of the properties *)

Module Spec.
Import Py Proxy.

(** The health document names workspace [W]. *)
Definition reports_workspace (r : response) (W : string) : Prop :=
  exists d,
    response_body r = BodyJson (JObj d) /\
    lookup "status" d = Some (JStr "ok") /\
    lookup "workspace" d = Some (JStr W).

(** The [stream] field of a request document. *)
Definition stream_flag (d : list (string * json)) : json :=
  match lookup "stream" d with Some v => v | None => JBool false end.

(** The request [chat_completions] posts for an inbound request whose
    document is [JObj d], with credential [tok], from state [st]. *)
Definition outbound (w : world) (req : request) (d : list (string * json))
  (tok : json) (st : state) : outbound_request :=
  {| url := DATABRICKS_HOST st ++ "/serving-endpoints/anthropic/v1/messages";
     headers := build_headers w req tok;
     json_body := JObj d;
     stream := stream_flag d;
     timeout := 180 |}.

Definition record_post (o : outbound_request) (st : state) : state :=
  {| DATABRICKS_HOST := DATABRICKS_HOST st;
     _token_cache := _token_cache st;
     spawned := spawned st;
     posted := posted st ++ [o] |}.

(** The error document of a gateway-side failure. *)
Definition databricks_error (r : upstream_response) : json :=
  error_body [("message", JStr (text r));
              ("type", JStr "databricks_error");
              ("code", JInt (status_code r))].

(** What the route answers once the gateway has answered [r]. *)
Definition relayed (is_streaming : json) (r : upstream_response) : response :=
  if negb (status_code r =? 200) then
    with_status (jsonify (databricks_error r)) (status_code r)
  else if truthy is_streaming then
    Response_mimetype (BodyStream (generate r)) "text/event-stream"
  else
    Response_content_type (BodyBytes (content r)) (status_code r)
      (headers_get_default (upstream_headers r) "Content-Type" "application/json").

(** The value the inbound request carries in [Authorization], [""] when
    it carries none. *)
Definition inbound_authorization (req : request) : string :=
  headers_get_default (request_headers req) "Authorization" "".

Definition record_spawn (argv : list string) (st : state) : state :=
  {| DATABRICKS_HOST := DATABRICKS_HOST st;
     _token_cache := _token_cache st;
     spawned := spawned st ++ [argv];
     posted := posted st |}.

(** The call answered from the cache: the cached token comes back and
    nothing happened, no subprocess in particular. *)
Definition served_from_cache (w : world) (st : state) : Prop :=
  get_databricks_token w st = (inr (access_token (_token_cache st)), st).

(** The call ran the broker, once. *)
Definition refresh_triggered (w : world) (st : state) : Prop :=
  spawned (snd (get_databricks_token w st))
    = (spawned st ++ [broker_argv (DATABRICKS_HOST st)])%list.

(** The refresh operation fails, times out, or returns no token: the
    subprocess raises (not installed, or [TimeoutExpired] after 10 s), exits
    with a code other than 0, prints something that is not a JSON object,
    or prints an object without a usable ["access_token"]. *)
Inductive gives_no_token : run_result -> Prop :=
| broker_raises e :
    gives_no_token (RunRaises e)
| broker_exit_code p :
    returncode p <> 0 ->
    gives_no_token (RunCompleted p)
| broker_output_unreadable p e :
    stdout_json p = inl e ->
    gives_no_token (RunCompleted p)
| broker_output_not_object p data e :
    stdout_json p = inr data ->
    get data "access_token" JNull = inl e ->
    gives_no_token (RunCompleted p)
| broker_output_no_token p data token :
    stdout_json p = inr data ->
    get data "access_token" JNull = inr token ->
    truthy token = false ->
    gives_no_token (RunCompleted p).

(** A healthy relay for workspace [W] answers on the preferred port: the
    probe gets a document with ["status"] ["ok"] that names [W]. *)
Definition healthy_instance (m : Cli.machine) (W : string) : Prop :=
  exists d,
    Cli.urlopen_health m Cli.PROXY_PORT = Cli.ProbeData (JObj d) /\
    lookup "status" d = Some (JStr "ok") /\
    lookup "workspace" d = Some (JStr W).

(** The document of the configuration error. *)
Definition config_error : json :=
  error_body
    [("message", JStr "No Databricks token available. Set DATABRICKS_TOKEN or run `databricks auth login`.");
     ("type", JStr "config_error")].

End Spec.

(** ** The launchers: the rest of [databricks_coding_agent/cli.py]

    [ensure_databricks_auth], [get_databricks_token] and [wait_for_proxy]
    have the same text in [databricks_claude/cli.py]. *)

Module Launcher.
Import Py.

(** *** What a launcher does and how it ends *)

(** The exceptions of [subprocess.run] the handlers tell apart. *)
Inductive run_exception : Type :=
| FileNotFoundError
| TimeoutExpired
| OtherRunException.

(** [subprocess.run(argv, ...)]: an exception, or the exit code and, for
    a run with [capture_output=True], what [json.loads(result.stdout)]
    evaluates to ([inl] when it raises). *)
Inductive ran : Type :=
| RunRaised (x : run_exception)
| RunExited (returncode : Z) (stdout_json : exn + json).

(** The system as one call of one launcher function meets it: the value
    of [DATABRICKS_TOKEN], whether [shutil.which] finds a command, and what
    running an argument vector does.  No function below runs the same
    argument vector twice; two calls, each spawning its own subprocess, are
    two systems. *)
Record system : Type := {
  environ_DATABRICKS_TOKEN : option string;
  which : string -> bool;
  subprocess_run : list string -> ran
}.

(** What the user can observe, oldest first: the texts handed to [print]
    and the subprocesses run, with their timeout in seconds. *)
Inductive event : Type :=
| Printed (text : string)
| Ran (argv : list string) (timeout : Z).

(** How a call ends: it returns, [sys.exit(code)] ends the process, or an
    exception no handler covers leaves it. *)
Inductive outcome (A : Type) : Type :=
| Returned (a : A)
| Exited (code : Z)
| Raised (x : run_exception).

Arguments Returned {A} a.
Arguments Exited {A} code.
Arguments Raised {A} x.

Definition L (A : Type) : Type := (list event * outcome A)%type.

Definition ret {A} (a : A) : L A := ([], Returned a).

Definition bind {A B} (m : L A) (k : A -> L B) : L B :=
  match m with
  | (t, Returned a) => ((t ++ fst (k a))%list, snd (k a))
  | (t, Exited code) => (t, Exited code)
  | (t, Raised x) => (t, Raised x)
  end.

Definition print (text : string) : L unit := ([Printed text], Returned tt).

Definition sys_exit {A} (code : Z) : L A := ([], Exited code).

Definition raise {A} (x : run_exception) : L A := ([], Raised x).

Declare Scope launcher_scope.
Delimit Scope launcher_scope with launcher.
Notation "x <- m ;; k" := (bind m (fun x => k))
  (at level 61, m at next level, right associativity) : launcher_scope.
Notation "m ;; k" := (bind m (fun _ => k))
  (at level 61, right associativity) : launcher_scope.

Local Open Scope launcher_scope.

Definition nl : string := String "010"%char EmptyString.

Section OnSystem.

Variable sys : system.

(** The call itself; what it raised is left to the caller's handlers. *)
Definition run (argv : list string) (timeout : Z) : L ran :=
  ([Ran argv timeout], Returned (subprocess_run sys argv)).

(** [os.environ.get("DATABRICKS_TOKEN")] under [if]. *)
Definition static_token : option string :=
  match environ_DATABRICKS_TOKEN sys with
  | Some t => if is_empty t then None else Some t
  | None => None
  end.

(** *** [ensure_cli_installed] *)

Definition NPM_PACKAGES : list (string * string) :=
  [("claude", "@anthropic-ai/claude-code");
   ("gemini", "@google/gemini-cli");
   ("codex", "@openai/codex")].

Definition ensure_cli_installed (command : string) : L unit :=
  if which sys command then ret tt
  else
    match lookup command NPM_PACKAGES with
    | None =>
        print ("ERROR: '" ++ command ++ "' is not installed and no npm package is known for it.") ;;
        sys_exit 1
    | Some package =>
        if is_empty package then
          print ("ERROR: '" ++ command ++ "' is not installed and no npm package is known for it.") ;;
          sys_exit 1
        else if negb (which sys "npm") then
          print ("ERROR: '" ++ command ++ "' is not installed and npm is not available to install it.") ;;
          print "Please install Node.js/npm first, then re-run." ;;
          sys_exit 1
        else
          print ("'" ++ command ++ "' not found. Installing " ++ package ++ " via npm...") ;;
          result <- run ["npm"; "install"; "-g"; package] 120 ;;
          match result with
          | RunExited returncode _ =>
              if negb (returncode =? 0) then
                print ("ERROR: Failed to install " ++ package ++ ".") ;;
                sys_exit 1
              else
                print ("Successfully installed " ++ package ++ "." ++ nl)
          | RunRaised TimeoutExpired =>
              print ("ERROR: npm install timed out for " ++ package ++ ".") ;;
              sys_exit 1
          | RunRaised x => raise x
          end
    end.

(** *** [ensure_databricks_auth] *)

(** Lines 91-95: the run exited 0 and its output is an object with a
    true ["access_token"]; [inl] when reading the output raises. *)
Definition session_token (result : ran) : exn + json :=
  match result with
  | RunExited returncode stdout_json =>
      if returncode =? 0 then
        match stdout_json with
        | inr data => get data "access_token" JNull
        | inl e => inl e
        end
      else inr JNull
  | RunRaised _ => inr JNull
  end.

(** Lines 102-115. *)
Definition login (host : string) : L unit :=
  print (nl ++ "No valid session found. Launching `databricks auth login`...") ;;
  print ("A browser window will open for authentication." ++ nl) ;;
  login_result <- run ["databricks"; "auth"; "login"; "--host"; host] 120 ;;
  match login_result with
  | RunExited returncode _ =>
      if negb (returncode =? 0) then
        print "ERROR: `databricks auth login` failed." ;;
        sys_exit 1
      else
        print ("Authentication successful!" ++ nl)
  | RunRaised TimeoutExpired =>
      print "ERROR: Authentication timed out." ;;
      sys_exit 1
  | RunRaised x => raise x
  end.

Definition ensure_databricks_auth (host : string) : L unit :=
  match static_token with
  | Some _ => print "Using DATABRICKS_TOKEN from environment."
  | None =>
      print ("No DATABRICKS_TOKEN set. Checking Databricks CLI auth for " ++ host ++ "...") ;;
      result <- run ["databricks"; "auth"; "token"; "--host"; host] 10 ;;
      match result with
      | RunRaised FileNotFoundError =>
          print "ERROR: 'databricks' CLI not found. Install it or set DATABRICKS_TOKEN." ;;
          sys_exit 1
      | _ =>
          match session_token result with
          | inr token =>
              if truthy token then print "Found valid Databricks CLI session."
              else login host
          | inl _ => login host
          end
      end
  end.

(** *** [get_databricks_token] *)

(** Every exception is swallowed; the value is the token or [None]. *)
Definition get_databricks_token (host : string) : L json :=
  match static_token with
  | Some t => ret (JStr t)
  | None =>
      result <- run ["databricks"; "auth"; "token"; "--host"; host] 10 ;;
      match session_token result with
      | inr token => if truthy token then ret token else ret JNull
      | inl _ => ret JNull
      end
  end.

End OnSystem.

(** *** [wait_for_proxy] *)

(** The clock and the relay as the polling loop meets them:
    [time_time n] is what the [n]-th call of [time.time()] returns, counted
    from 0, and [urlopen_ok port n] tells whether the [n]-th
    [urlopen(f"http://127.0.0.1:{port}/", timeout=1)] returns instead of
    raising. *)
Record polling : Type := {
  time_time : nat -> Q;
  urlopen_ok : Z -> nat -> bool
}.

(** The [while] loop at its [n]-th test, with [fuel] bounding the tests
    still made.  The value pairs what the function returns with the number
    of probes sent from here on; [None] when the fuel runs out. *)
Fixpoint wait_loop (p : polling) (port : Z) (deadline : Q) (fuel n : nat)
  : option (bool * nat) :=
  match fuel with
  | O => None
  | S fuel' =>
      if Qltb (time_time p (S n)) deadline then
        if urlopen_ok p port n then Some (true, 1%nat)
        else
          (* time.sleep(0.2) *)
          match wait_loop p port deadline fuel' (S n) with
          | Some (answer, probes) => Some (answer, S probes)
          | None => None
          end
      else Some (false, 0%nat)
  end.

Definition wait_for_proxy (p : polling) (port : Z) (timeout : Q) (fuel : nat)
  : option (bool * nat) :=
  let deadline := (time_time p 0 + timeout)%Q in
  wait_loop p port deadline fuel 0.

(** *** [main] *)

(** [s.rstrip("/")] *)
Fixpoint rstrip_slash (s : string) : string :=
  match s with
  | EmptyString => EmptyString
  | String c rest =>
      let rest' := rstrip_slash rest in
      if (is_empty rest' && Ascii.eqb c "/"%char)%bool then EmptyString
      else String c rest'
  end.

Definition has_scheme (s : string) : bool :=
  (String.prefix "https://" s || String.prefix "http://" s)%bool.

(** Lines 376-379 (213-217 in [databricks_claude/cli.py]). *)
Definition normalize_workspace (workspace : string) : string :=
  rstrip_slash (if has_scheme workspace then workspace else "https://" ++ workspace).

Inductive tool : Type := claude | gemini | codex.

Inductive mode : Type := databricks | claude_max.

(** What [parse_known_args] hands over: the three options, their values
    already checked against [choices], and the remaining arguments. *)
Record arguments : Type := {
  arg_tool : tool;
  arg_workspace : option string;
  arg_mode : option mode;
  tool_args : list string
}.

Inductive launch : Type :=
| launch_databricks_mode
| launch_claude_max_mode
| launch_gemini_mode
| launch_codex_mode.

(** Where [main] hands over: [os.execvp("claude", argv)], [parser.error],
    one of the launch functions called on the normalized workspace, or the
    end of [main] with no branch taken. *)
Inductive decision : Type :=
| ExecClaude (argv : list string)
| ParserError (message : string)
| Launch (target : launch) (workspace : string) (args : list string)
| FallsThrough.

(** [not args.workspace] *)
Definition no_workspace (a : arguments) : bool :=
  match arg_workspace a with
  | Some ws => is_empty ws
  | None => true
  end.

Definition no_mode (a : arguments) : bool :=
  match arg_mode a with
  | Some _ => false
  | None => true
  end.

Definition is_claude (t : tool) : bool :=
  match t with claude => true | _ => false end.

Definition main (sys : system) (a : arguments) : L decision :=
  if (no_workspace a && no_mode a)%bool then
    ensure_cli_installed sys "claude" ;;
    ret (ExecClaude ("claude" :: tool_args a))
  else if no_workspace a then
    ret (ParserError "--workspace is required.")
  else if (negb (no_mode a) && negb (is_claude (arg_tool a)))%bool then
    ret (ParserError "--mode is only supported with --tool claude.")
  else
    let workspace :=
      normalize_workspace
        (match arg_workspace a with Some ws => ws | None => EmptyString end) in
    match arg_tool a with
    | claude =>
        match arg_mode a with
        | None | Some databricks =>
            ret (Launch launch_databricks_mode workspace (tool_args a))
        | Some claude_max =>
            ret (Launch launch_claude_max_mode workspace (tool_args a))
        end
    | gemini => ret (Launch launch_gemini_mode workspace (tool_args a))
    | codex => ret (Launch launch_codex_mode workspace (tool_args a))
    end.

End Launcher.

(** ** [databricks_claude/cli.py]: [main] *)

Module ClaudeLauncher.
Import Py.

(** The options of this launcher: no [--tool]. *)
Record arguments : Type := {
  arg_workspace : option string;
  arg_mode : option Launcher.mode;
  claude_args : list string
}.

Definition no_workspace (a : arguments) : bool :=
  match arg_workspace a with
  | Some ws => is_empty ws
  | None => true
  end.

Definition no_mode (a : arguments) : bool :=
  match arg_mode a with
  | Some _ => false
  | None => true
  end.

Definition main (a : arguments) : Launcher.decision :=
  if (no_mode a && no_workspace a)%bool then
    Launcher.ExecClaude ("claude" :: claude_args a)
  else if (negb (no_mode a) && no_workspace a)%bool then
    Launcher.ParserError "--workspace is required when --mode is specified."
  else if (negb (no_workspace a) && no_mode a)%bool then
    Launcher.ParserError "--mode is required when --workspace is specified."
  else
    let workspace :=
      Launcher.normalize_workspace
        (match arg_workspace a with Some ws => ws | None => EmptyString end) in
    match arg_mode a with
    | Some Launcher.databricks =>
        Launcher.Launch Launcher.launch_databricks_mode workspace (claude_args a)
    | Some Launcher.claude_max =>
        Launcher.Launch Launcher.launch_claude_max_mode workspace (claude_args a)
    | None => Launcher.FallsThrough
    end.

End ClaudeLauncher.

(** ** Further vocabulary *)

Module Behaviour.
Import Py Proxy Spec.

(** The call gets past the override and the cache, to the broker. *)
Definition reaches_broker (w : world) (st : state) : Prop :=
  static_token w = None /\
  cache_fresh (time_time w) (_token_cache st) = false.

(** [databricks auth token] exits 0 and prints the object [d]. *)
Definition broker_prints (w : world) (st : state) (d : list (string * json)) : Prop :=
  exists p,
    subprocess_run w (broker_argv (DATABRICKS_HOST st)) = RunCompleted p /\
    returncode p = 0 /\
    stdout_json p = inr (JObj d).

(** The broker's run offers [token]: it exited 0 and printed an object
    whose ["access_token"] is the true value [token]. *)
Definition broker_offers (w : world) (st : state) (token : json) : Prop :=
  exists d,
    broker_prints w st d /\
    lookup "access_token" d = Some token /\
    truthy token = true.

(** [data.get("expiry", 0)] *)
Definition expiry_field (d : list (string * json)) : json :=
  match lookup "expiry" d with Some v => v | None => JInt 0 end.

(** The expiry says nothing usable: it is missing, [null], zero, empty,
    or a string the ISO parser rejects with [ValueError]. *)
Definition expiry_unknown (w : world) (raw : json) : Prop :=
  match raw with
  | JStr s => fromisoformat_timestamp w (replace "Z" "+00:00" s) = IsoValueError
  | _ => truthy raw = false
  end.

(** The expiry makes the conversion raise: a non-empty list or object, an
    integer beyond the range of a float, or a string on which the parser
    fails otherwise than with [ValueError]. *)
Inductive expiry_unconvertible (w : world) : json -> Prop :=
| expiry_is_list x l : expiry_unconvertible w (JArr (x :: l))
| expiry_is_object kv d : expiry_unconvertible w (JObj (kv :: d))
| expiry_is_huge z :
    2 ^ 1024 - 2 ^ 970 <= Z.abs z ->
    expiry_unconvertible w (JInt z)
| expiry_breaks_parser s e :
    fromisoformat_timestamp w (replace "Z" "+00:00" s) = IsoOtherError e ->
    expiry_unconvertible w (JStr s).

(** The state after a refresh that stored [token] with expiry [e]. *)
Definition refreshed (token : json) (e : Q) (st : state) : state :=
  record_spawn (broker_argv (DATABRICKS_HOST st))
    (set_token_cache {| access_token := token; expiry := e |} st).

(** The state after a refresh that stored nothing. *)
Definition attempted (st : state) : state :=
  record_spawn (broker_argv (DATABRICKS_HOST st)) st.

(** The error document of a local failure. *)
Definition local_error (message kind : string) : json :=
  JObj [("error", JObj [("message", JStr message); ("type", JStr kind)])].

(** The URL every request is posted to. *)
Definition messages_url (st : state) : string :=
  DATABRICKS_HOST st ++ "/serving-endpoints/anthropic/v1/messages".

(** The subprocesses of a trace, in order, with their timeouts. *)
Fixpoint runs (t : list Launcher.event) : list (list string * Z) :=
  match t with
  | [] => []
  | Launcher.Ran argv timeout :: rest => (argv, timeout) :: runs rest
  | Launcher.Printed _ :: rest => runs rest
  end.

(** The texts of a trace, in order. *)
Fixpoint printed (t : list Launcher.event) : list string :=
  match t with
  | [] => []
  | Launcher.Printed text :: rest => text :: printed rest
  | Launcher.Ran _ _ :: rest => printed rest
  end.

Definition npm_install (package : string) : list string :=
  ["npm"; "install"; "-g"; package].

Definition auth_token (host : string) : list string :=
  ["databricks"; "auth"; "token"; "--host"; host].

Definition auth_login (host : string) : list string :=
  ["databricks"; "auth"; "login"; "--host"; host].

(** [databricks auth token] exits 0 and prints an object whose
    ["access_token"] is the true value [token]. *)
Definition has_session (sys : Launcher.system) (host : string) (token : json) : Prop :=
  exists d,
    Launcher.subprocess_run sys (auth_token host)
      = Launcher.RunExited 0 (inr (JObj d)) /\
    lookup "access_token" d = Some token /\
    truthy token = true.

(** Whether the first run found a session. *)
Definition found (sys : Launcher.system) (host : string) : bool :=
  match Launcher.session_token (Launcher.subprocess_run sys (auth_token host)) with
  | inr token => truthy token
  | inl _ => false
  end.

(** The override is set to a value. *)
Definition override_set (sys : Launcher.system) : Prop :=
  exists t, Launcher.environ_DATABRICKS_TOKEN sys = Some t /\ t <> EmptyString.

(** Each reading of the clock in the polling loop comes at least 0.2
    seconds after the one before (the loop sleeps that long between two
    tests), and the first test does not read an earlier time than the call
    that set the deadline. *)
Definition steady_clock (p : Launcher.polling) : Prop :=
  (Launcher.time_time p 0 <= Launcher.time_time p 1)%Q /\
  forall n, (Launcher.time_time p (S n) + (1 # 5) <= Launcher.time_time p (S (S n)))%Q.

(** [s.endswith("/")] *)
Fixpoint ends_with_slash (s : string) : bool :=
  match s with
  | EmptyString => false
  | String c EmptyString => Ascii.eqb c "/"%char
  | String _ rest => ends_with_slash rest
  end.

(** ["/" * k] *)
Fixpoint slashes (k : nat) : string :=
  match k with
  | O => EmptyString
  | S k' => String "/"%char (slashes k')
  end.

(** The workspace with [https://] put in front unless it names a scheme. *)
Definition with_scheme (workspace : string) : string :=
  if Launcher.has_scheme workspace then workspace else "https://" ++ workspace.

(** [--workspace] was given the non-empty value [w]. *)
Definition workspace_given (given : option string) (w : string) : Prop :=
  given = Some w /\ w <> EmptyString.

Definition launch_of (m : Launcher.mode) : Launcher.launch :=
  match m with
  | Launcher.databricks => Launcher.launch_databricks_mode
  | Launcher.claude_max => Launcher.launch_claude_max_mode
  end.

(** The probe is answered with the document of response [r]. *)
Definition answered_with (r : response) (p : Cli.probe_result) : Prop :=
  exists j, response_body r = BodyJson j /\ p = Cli.ProbeData j.

End Behaviour.

(** ** Further concrete runs *)

Module Cases.
Import Py Proxy.

(** [databricks auth token] prints a token and no expiry. *)
Definition undated_world : world :=
  Scenario.make_world None 1000
    (Scenario.cli_prints (JObj [("access_token", JStr "oauth-2")]))
    (Scenario.gateway_answers Scenario.event_stream).

(** [databricks auth token] prints a token and a list for its expiry. *)
Definition garbled_world : world :=
  Scenario.make_world None 1000
    (Scenario.cli_prints
       (JObj [("access_token", JStr "oauth-3"); ("expiry", JArr [JInt 5000])]))
    (Scenario.gateway_answers Scenario.event_stream).

(** The gateway answers [304 Not Modified]. *)
Definition not_modified : upstream_response :=
  {| status_code := 304;
     text := EmptyString;
     content := EmptyString;
     upstream_headers := [];
     iter_content := [] |}.

Definition not_modified_world : world :=
  Scenario.make_world (Some "dapi-0123") 1000 Scenario.no_cli
    (Scenario.gateway_answers not_modified).

(** [databricks auth token] prints once more the token it printed
    before, with the expiry it had. *)
Definition reissuing_world : world :=
  Scenario.make_world None 1000
    (Scenario.cli_prints
       (JObj [("access_token", JStr "oauth-1"); ("expiry", JInt 1060)]))
    (Scenario.gateway_answers Scenario.event_stream).

(** Later the same day, the CLI gone. *)
Definition later_world (now : Q) : world :=
  Scenario.make_world None now Scenario.no_cli
    (Scenario.gateway_answers Scenario.event_stream).

Definition token_object : list (string * json) :=
  [("access_token", JStr "oauth-1"); ("expiry", JInt 5000)].

Definition plain_answer : upstream_response :=
  {| status_code := 200;
     text := "{}";
     content := "{}";
     upstream_headers := [("content-type", "application/json; charset=utf-8")];
     iter_content := ["{}"] |}.

(** The gateway answers 200 with a JSON body. *)
Definition answering_world : world :=
  Scenario.make_world (Some "dapi-0123") 1000 Scenario.no_cli
    (Scenario.gateway_answers plain_answer).

(** The gateway cannot be reached. *)
Definition refused_world : world :=
  Scenario.make_world (Some "dapi-0123") 1000 Scenario.no_cli
    (fun _ => PostRaises (Exn RequestException "Connection refused")).

Definition list_request : request :=
  {| request_headers := [("Authorization", "Bearer sk-ant-api03-key")];
     get_json := inr (JArr [JInt 1]) |}.

Definition plain_document : list (string * json) :=
  [("model", JStr "claude-sonnet"); ("stream", JBool false)].

(** The relay of [databricks_claude] holds the preferred port. *)
Definition machine_with_claude_relay : Cli.machine :=
  {| Cli.urlopen_health := fun _ => Cli.ProbeData (JObj [("status", JStr "ok")]);
     Cli.bind := fun port => if port =? 0 then Some 49153 else None |}.

(** A machine with [npm] but no [gemini], on which the install works;
    no override, and a CLI session that holds a token. *)
Definition workstation : Launcher.system :=
  {| Launcher.environ_DATABRICKS_TOKEN := None;
     Launcher.which := fun command => String.eqb command "npm";
     Launcher.subprocess_run := fun argv =>
       match argv with
       | "npm" :: _ => Launcher.RunExited 0 (inl (Exn OtherException "not captured"))
       | _ => Launcher.RunExited 0 (inr (JObj [("access_token", JStr "oauth-1")]))
       end |}.

(** No override, the CLI installed but logged out, and a login that
    works. *)
Definition logged_out_machine : Launcher.system :=
  {| Launcher.environ_DATABRICKS_TOKEN := None;
     Launcher.which := fun _ => true;
     Launcher.subprocess_run := fun argv =>
       match argv with
       | [_; _; "token"; _; _] =>
           Launcher.RunExited 1 (inl (Exn OtherException "Expecting value"))
       | _ => Launcher.RunExited 0 (inl (Exn OtherException "not captured"))
       end |}.

(** A clock read once a second, and a relay that answers from the third
    probe on. *)
Definition ticking : Launcher.polling :=
  {| Launcher.time_time := fun n => inject_Z (Z.of_nat n);
     Launcher.urlopen_ok := fun _ n => Nat.leb 2 n |}.

Definition gemini_arguments : Launcher.arguments :=
  {| Launcher.arg_tool := Launcher.gemini;
     Launcher.arg_workspace := Some "adb-1234.cloud.databricks.com/";
     Launcher.arg_mode := None;
     Launcher.tool_args := ["-p"; "hi"] |}.

Definition codex_with_mode : Launcher.arguments :=
  {| Launcher.arg_tool := Launcher.codex;
     Launcher.arg_workspace := Some "adb-1234.cloud.databricks.com";
     Launcher.arg_mode := Some Launcher.claude_max;
     Launcher.tool_args := [] |}.

Definition claude_max_arguments : ClaudeLauncher.arguments :=
  {| ClaudeLauncher.arg_workspace := Some "http://localhost:9000//";
     ClaudeLauncher.arg_mode := Some Launcher.claude_max;
     ClaudeLauncher.claude_args := ["--verbose"] |}.

Definition workspace_only : ClaudeLauncher.arguments :=
  {| ClaudeLauncher.arg_workspace := Some "adb-1234.cloud.databricks.com";
     ClaudeLauncher.arg_mode := None;
     ClaudeLauncher.claude_args := [] |}.

End Cases.

(** ** Properties of the relay *)

Import Py Proxy Spec.

(** Case analysis on every test the refresh makes, in the order the
    tests are made. *)
Ltac refresh_cases :=
  repeat match goal with
         | |- context [match ?x with _ => _ end] =>
             lazymatch x with
             | context [match _ with _ => _ end] => fail
             | _ => destruct x eqn:?; cbn
             end
         end.

(** *** The health route *)

(** C1, as stated, fails: for a relay started on a workspace, [GET /]
    answers 200 but the document does not name that workspace. *)
Lemma health_omits_workspace :
  DATABRICKS_HOST (run_proxy Scenario.workspace Scenario.fresh_state) = Scenario.workspace /\
  status health = 200 /\
  ~ reports_workspace health Scenario.workspace.
Proof.
  split; [reflexivity | split; [reflexivity |]].
  intros [d [Hbody [_ Hws]]].
  unfold health, jsonify in Hbody; simpl in Hbody.
  injection Hbody as <-.
  discriminate Hws.
Qed.

(** C1, amended: whatever workspace the relay was started on, [GET /]
    answers 200 with the JSON document [{"status":"ok"}], whose only field
    is ["status"]; no ["workspace"] field is sent. *)
Theorem health_status_ok :
  forall (W : string) (st : state) (float_repr : Q -> string),
    DATABRICKS_HOST (run_proxy W st) = W /\
    status health = 200 /\
    content_type health = "application/json" /\
    response_body health = BodyJson (JObj [("status", JStr "ok")]) /\
    body_bytes float_repr (response_body health)
      = "{" ++ quote "status" ++ ":" ++ quote "ok" ++ "}"
          ++ String "010"%char EmptyString /\
    ~ reports_workspace health W.
Proof.
  intros W st fr.
  repeat split.
  intros [d [Hbody [_ Hws]]].
  unfold health, jsonify in Hbody; simpl in Hbody.
  injection Hbody as <-.
  discriminate Hws.
Qed.

(** *** The credential provider *)

Lemma Qltb_lt (a b : Q) : Qltb a b = true <-> (a < b)%Q.
Proof.
  unfold Qltb. rewrite negb_true_iff. split; intro H.
  - apply Qnot_le_lt. intro Hle. apply Qle_bool_iff in Hle. congruence.
  - destruct (Qle_bool b a) eqn:E; [| reflexivity].
    apply Qle_bool_iff in E. exfalso. exact (Qlt_not_le _ _ H E).
Qed.

Lemma static_token_set (w : world) (t : string) :
  environ_DATABRICKS_TOKEN w = Some t -> t <> EmptyString ->
  static_token w = Some t.
Proof.
  intros Henv Hne. unfold static_token. rewrite Henv.
  destruct t; [congruence | reflexivity].
Qed.

(** An empty [DATABRICKS_TOKEN] is no override: [if static_token:] is
    false for it. *)
Lemma static_token_empty (w : world) :
  environ_DATABRICKS_TOKEN w = Some EmptyString -> static_token w = None.
Proof. intros Henv. unfold static_token. now rewrite Henv. Qed.

(** Whatever the broker does, a refresh runs it exactly once, posts
    nothing and leaves the host alone. *)
Lemma refresh_effects (w : world) (now : Q) (st : state) :
  let st' := snd (try_except (refresh w now) (fun _ => ret JNull) st) in
  spawned st' = (spawned st ++ [broker_argv (DATABRICKS_HOST st)])%list /\
  posted st' = posted st /\
  DATABRICKS_HOST st' = DATABRICKS_HOST st.
Proof.
  unfold try_except, refresh, bind, gets, run, lift, modify, ret, set_token_cache.
  cbn. refresh_cases; auto.
Qed.

(** A refresh never raises past [get_databricks_token]. *)
Lemma refresh_caught (w : world) (now : Q) (st : state) :
  exists v, fst (try_except (refresh w now) (fun _ => ret JNull) st) = inr v.
Proof.
  unfold try_except. destruct (refresh w now st) as [[e | v] st']; cbn; eauto.
Qed.

Lemma get_databricks_token_never_raises (w : world) (st : state) :
  exists v st', get_databricks_token w st = (inr v, st').
Proof.
  unfold get_databricks_token.
  destruct (static_token w); [unfold ret; eauto |].
  unfold bind, gets. destruct (cache_fresh _ _); [unfold ret; eauto |].
  destruct (refresh_caught w (time_time w) st) as [v Hv].
  destruct (try_except _ _ st) as [r st'] eqn:E. cbn in Hv. subst r. eauto.
Qed.

(** The provider posts nothing to the gateway and keeps the host. *)
Lemma get_databricks_token_keeps (w : world) (st : state) :
  let st' := snd (get_databricks_token w st) in
  posted st' = posted st /\ DATABRICKS_HOST st' = DATABRICKS_HOST st.
Proof.
  unfold get_databricks_token.
  destruct (static_token w); [cbn; auto |].
  unfold bind, gets. destruct (cache_fresh _ _); [cbn; auto |].
  destruct (refresh_effects w (time_time w) st) as [_ H]. exact H.
Qed.

(** With no override and a stale or empty cache the answer is the
    refresh's. *)
Lemma get_databricks_token_refreshes (w : world) (st : state) :
  static_token w = None ->
  cache_fresh (time_time w) (_token_cache st) = false ->
  get_databricks_token w st
    = try_except (refresh w (time_time w)) (fun _ => ret JNull) st.
Proof.
  intros Hstatic Hstale. unfold get_databricks_token, bind, gets.
  now rewrite Hstatic, Hstale.
Qed.

Lemma list_app_one_neq {A} (l : list A) (x : A) : (l ++ [x])%list <> l.
Proof.
  intro H. apply (f_equal (@List.length A)) in H.
  rewrite length_app in H. cbn in H. lia.
Qed.

(** A successful refresh fills the cache, and the next call is answered
    from it without a second subprocess. *)
Example refresh_then_cache :
  get_databricks_token Scenario.logged_in_world Scenario.fresh_state
    = (inr (JStr "oauth-1"),
       record_spawn (broker_argv Scenario.workspace)
         (Scenario.cached_state "oauth-1" (inject_Z 5000))) /\
  served_from_cache Scenario.logged_in_world
    (record_spawn (broker_argv Scenario.workspace)
       (Scenario.cached_state "oauth-1" (inject_Z 5000))).
Proof. split; reflexivity. Qed.

(** C6: when the override [DATABRICKS_TOKEN] is set (to a value, the
    empty string being no credential), the provider returns it at once:
    the state is untouched, so no subprocess was run and the cache was
    neither read for the answer nor written, whatever it holds. *)
Theorem override_returned_without_broker :
  forall (w : world) (st : state) (t : string),
    environ_DATABRICKS_TOKEN w = Some t ->
    t <> EmptyString ->
    get_databricks_token w st = (inr (JStr t), st) /\
    spawned (snd (get_databricks_token w st)) = spawned st.
Proof.
  intros w st t Henv Hne.
  unfold get_databricks_token.
  rewrite (static_token_set w t Henv Hne). split; reflexivity.
Qed.

Lemma override_returned_without_broker_witness :
  get_databricks_token
    Scenario.static_world
    (Scenario.cached_state "stale-oauth-token" 0)
  = (inr (JStr "dapi-0123"), Scenario.cached_state "stale-oauth-token" 0) /\
  spawned (snd (get_databricks_token
    Scenario.static_world
    (Scenario.cached_state "stale-oauth-token" 0))) = [].
Proof.
  apply (override_returned_without_broker
           Scenario.static_world
           (Scenario.cached_state "stale-oauth-token" 0) "dapi-0123").
  - reflexivity.
  - discriminate.
Defined.

(** *** The proxied route, step by step *)

Section Route.

Variable w : world.

(** A request whose document is an object, served with a credential in
    hand, is posted to the gateway; the answer depends on the gateway's. *)
Lemma chat_completions_posts (req : request) (st st1 : state)
  (d : list (string * json)) (tok : json) :
  get_json req = inr (JObj d) ->
  get_databricks_token w st = (inr tok, st1) ->
  truthy tok = true ->
  chat_completions w req st =
    let o := outbound w req d tok st1 in
    (match requests_post w o with
     | PostRaises e => chat_completions_except e
     | PostReturns r => relayed (stream_flag d) r
     end, record_post o st1).
Proof.
  intros Hjson Htok Htruthy.
  unfold chat_completions, chat_completions_try, bind, lift.
  rewrite Hjson. cbn [get]. rewrite Htok, Htruthy. cbn [negb].
  unfold gets, post, ret, outbound, record_post, relayed, stream_flag, databricks_error.
  destruct (requests_post w _) as [e | r]; [reflexivity |].
  destruct (negb (status_code r =? 200)); [reflexivity |].
  destruct (truthy match lookup "stream" d with Some v => v | None => JBool false end);
    reflexivity.
Qed.

(** Without a credential nothing is posted and the answer is the
    configuration error. *)
Lemma chat_completions_unavailable (req : request) (st st1 : state)
  (d : list (string * json)) (tok : json) :
  get_json req = inr (JObj d) ->
  get_databricks_token w st = (inr tok, st1) ->
  truthy tok = false ->
  chat_completions w req st =
    (with_status (jsonify config_error) 500, st1).
Proof.
  intros Hjson Htok Hfalsy.
  unfold chat_completions, chat_completions_try, bind, lift.
  rewrite Hjson. cbn [get]. rewrite Htok, Hfalsy. reflexivity.
Qed.

End Route.

(** *** Failures *)

Section Failures.

Variable w : world.

Lemma failed_refresh_returns_None (st : state) :
  static_token w = None ->
  cache_fresh (time_time w) (_token_cache st) = false ->
  gives_no_token (subprocess_run w (broker_argv (DATABRICKS_HOST st))) ->
  get_databricks_token w st
    = (inr JNull, record_spawn (broker_argv (DATABRICKS_HOST st)) st).
Proof.
  intros Hstatic Hstale Hfail.
  rewrite (get_databricks_token_refreshes w st Hstatic Hstale).
  unfold try_except, refresh, bind, gets, run, lift, modify, ret, record_spawn.
  cbn.
  inversion Hfail as [e Heq | p Hcode Heq | p e Hout Heq
                     | p data e Hout Hget Heq | p data token Hout Hget Hfalsy Heq];
    cbn.
  - reflexivity.
  - apply Z.eqb_neq in Hcode. now rewrite Hcode.
  - destruct (returncode p =? 0); [| reflexivity]. now rewrite Hout.
  - destruct (returncode p =? 0); [| reflexivity]. now rewrite Hout, Hget.
  - destruct (returncode p =? 0); [| reflexivity].
    now rewrite Hout, Hget, Hfalsy.
Qed.

End Failures.

(** C7: when the refresh fails, times out or returns no token, the
    provider returns [None] (it returns: nothing is raised), having run the
    broker once; and the proxied route, for a request whose document is an
    object, answers 500 with the error type ["config_error"] and posts
    nothing to the gateway. *)
Theorem failed_refresh_is_config_error :
  forall (w : world) (st : state),
    static_token w = None ->
    cache_fresh (time_time w) (_token_cache st) = false ->
    gives_no_token (subprocess_run w (broker_argv (DATABRICKS_HOST st))) ->
    get_databricks_token w st
      = (inr JNull, record_spawn (broker_argv (DATABRICKS_HOST st)) st) /\
    forall (req : request) (d : list (string * json)),
      get_json req = inr (JObj d) ->
      let resp := fst (chat_completions w req st) in
      status resp = 500 /\
      response_body resp
        = BodyJson (JObj [("error",
             JObj [("message", JStr "No Databricks token available. Set DATABRICKS_TOKEN or run `databricks auth login`.");
                   ("type", JStr "config_error")])]) /\
      posted (snd (chat_completions w req st)) = posted st.
Proof.
  intros w st Hstatic Hstale Hfail.
  pose proof (failed_refresh_returns_None w st Hstatic Hstale Hfail) as Hnone.
  split; [exact Hnone |].
  intros req d Hjson resp. subst resp.
  rewrite (chat_completions_unavailable w req st _ d JNull Hjson Hnone eq_refl).
  repeat split.
Qed.

Lemma failed_refresh_is_config_error_witness :
  get_databricks_token Scenario.logged_out_world Scenario.fresh_state
    = (inr JNull,
       record_spawn (broker_argv Scenario.workspace) Scenario.fresh_state) /\
  status (fst (chat_completions Scenario.logged_out_world
                 Scenario.cli_request Scenario.fresh_state)) = 500.
Proof.
  destruct (failed_refresh_is_config_error
              Scenario.logged_out_world Scenario.fresh_state eq_refl eq_refl)
    as [Hnone Hroute].
  - apply broker_exit_code. cbn. discriminate.
  - split; [exact Hnone |].
    destruct (Hroute Scenario.cli_request _ eq_refl) as [Hstatus _].
    exact Hstatus.
Defined.

(** *** Gateway errors *)





(** A gateway answer [304 Not Modified] reaches the caller with its
    status and nothing else: no body and no [Content-Type]. *)
Example not_modified_sent_bare :
  get_wsgi_response (fun _ => EmptyString)
    (fst (chat_completions Cases.not_modified_world
            Scenario.cli_request Scenario.fresh_state))
  = {| wire_status := 304; wire_content_type := None; wire_body := EmptyString |}.
Proof. reflexivity. Qed.

(** *** The request transformer *)

Lemma replace_from_skip (old new : string) (s : string) :
  forall k, replace_from old new k s = replace_from old new O (drop k s).
Proof.
  induction s as [| c rest IH]; intros [| k]; try reflexivity.
  cbn [replace_from drop]. apply IH.
Qed.

Lemma replace_from_absent (old new : string) (s : string) :
  occurs old s = false -> replace_from old new O s = s.
Proof.
  induction s as [| c rest IH]; [reflexivity |].
  cbn [occurs]. intro H. apply orb_false_iff in H as [Hprefix Hrest].
  cbn [replace_from]. rewrite Hprefix. now rewrite (IH Hrest).
Qed.

Lemma prefix_nonempty (old s : string) :
  is_empty old = false -> String.prefix old s = true ->
  exists c rest, s = String c rest.
Proof.
  destruct old as [| a old']; [discriminate |].
  destruct s as [| c rest]; [discriminate | eauto].
Qed.

(** Where [old] occurs at most as a prefix, deleting every occurrence is
    removing the prefix. *)
Lemma replace_is_removeprefix (old s : string) :
  is_empty old = false ->
  occurs old (removeprefix old s) = false ->
  replace old EmptyString s = removeprefix old s.
Proof.
  intros Hne Habsent. unfold replace. rewrite Hne.
  unfold removeprefix in *.
  destruct (String.prefix old s) eqn:Hprefix.
  - destruct (prefix_nonempty old s Hne Hprefix) as [c [rest ->]].
    cbn [replace_from]. rewrite Hprefix. cbn [String.append].
    rewrite replace_from_skip.
    destruct old as [| a old']; [discriminate |].
    cbn [String.length Nat.pred drop] in *.
    now apply replace_from_absent.
  - now apply replace_from_absent.
Qed.

(** Every occurrence goes, not only a leading one. *)
Lemma x_anthropic_api_key_is_replace (w : world) (req : request) (tok : json) :
  lookup "x-anthropic-api-key" (build_headers w req tok)
    = Some (replace "Bearer " EmptyString (inbound_authorization req)).
Proof. reflexivity. Qed.

(** C3, at the failing input: with [Authorization: Bearer sk-ant
    Bearer x] the outbound [x-anthropic-api-key] is [sk-ant x], while the
    value with its [Bearer ] prefix removed, the caller's key, is
    [sk-ant Bearer x]: [str.replace] deletes the later [Bearer ] too. *)
Theorem second_bearer_is_deleted_too :
  inbound_authorization Scenario.twice_bearer_request = "Bearer sk-ant Bearer x" /\
  removeprefix "Bearer " (inbound_authorization Scenario.twice_bearer_request)
    = "sk-ant Bearer x" /\
  lookup "x-anthropic-api-key"
    (build_headers Scenario.static_world Scenario.twice_bearer_request (JStr "dapi-0123"))
    = Some "sk-ant x" /\
  lookup "x-anthropic-api-key"
    (build_headers Scenario.static_world Scenario.twice_bearer_request (JStr "dapi-0123"))
    <> Some (removeprefix "Bearer " (inbound_authorization Scenario.twice_bearer_request)).
Proof.
  repeat split. discriminate.
Qed.

(** Where [Bearer ] does not occur again after the prefix, the slip
    does not show: the outbound
    [x-anthropic-api-key] is the inbound [Authorization] value with its
    [Bearer ] prefix removed, and the outbound [Authorization] is [Bearer ]
    followed by the credential. *)
Lemma outbound_credentials :
  forall (w : world) (req : request) (credential : string),
    occurs "Bearer " (removeprefix "Bearer " (inbound_authorization req)) = false ->
    lookup "x-anthropic-api-key" (build_headers w req (JStr credential))
      = Some (removeprefix "Bearer " (inbound_authorization req)) /\
    lookup "Authorization" (build_headers w req (JStr credential))
      = Some ("Bearer " ++ credential).
Proof.
  intros w req credential Habsent. split; [| reflexivity].
  rewrite x_anthropic_api_key_is_replace.
  now rewrite (replace_is_removeprefix "Bearer " _ eq_refl Habsent).
Qed.

Lemma outbound_credentials_witness :
  lookup "x-anthropic-api-key"
    (build_headers Scenario.static_world Scenario.cli_request (JStr "dapi-0123"))
    = Some "sk-ant-api03-key" /\
  lookup "Authorization"
    (build_headers Scenario.static_world Scenario.cli_request (JStr "dapi-0123"))
    = Some "Bearer dapi-0123".
Proof.
  apply (outbound_credentials Scenario.static_world Scenario.cli_request "dapi-0123").
  reflexivity.
Defined.

(** The outbound [anthropic-beta] header is always there: it is the
    inbound value, or the text [None]. *)
Lemma anthropic_beta_always_sent (w : world) (req : request) (tok : json) :
  lookup "anthropic-beta" (build_headers w req tok)
    = Some (match headers_get (request_headers req) "Anthropic-Beta" with
            | Some v => v
            | None => "None"
            end).
Proof. reflexivity. Qed.

(** C9, at the failing input: a request with no [Anthropic-Beta] header
    goes out with the header [anthropic-beta: None], while a request that
    has one goes out with its value. *)
Theorem absent_beta_header_sent_as_None :
  headers_get (request_headers Scenario.request_without_beta) "Anthropic-Beta" = None /\
  lookup "anthropic-beta"
    (build_headers Scenario.static_world Scenario.request_without_beta (JStr "dapi-0123"))
    = Some "None" /\
  lookup "anthropic-beta"
    (build_headers Scenario.static_world Scenario.cli_request (JStr "dapi-0123"))
    = Some "prompt-caching-2024-07-31".
Proof. repeat split. Qed.

(** C10: a request with no [Authorization] header, whose document is an
    object and for which a credential is at hand, is posted to the gateway
    all the same, with an empty [x-anthropic-api-key]; the answer is made
    from the gateway's. *)
Theorem request_without_authorization_forwarded :
  forall (w : world) (req : request) (st st1 : state)
         (d : list (string * json)) (tok : json),
    headers_get (request_headers req) "Authorization" = None ->
    get_json req = inr (JObj d) ->
    get_databricks_token w st = (inr tok, st1) ->
    truthy tok = true ->
    let o := outbound w req d tok st1 in
    posted (snd (chat_completions w req st)) = (posted st ++ [o])%list /\
    lookup "x-anthropic-api-key" (headers o) = Some EmptyString /\
    fst (chat_completions w req st)
      = match requests_post w o with
        | PostRaises e => chat_completions_except e
        | PostReturns r => relayed (stream_flag d) r
        end.
Proof.
  intros w req st st1 d tok Hauth Hjson Htok Htruthy o. subst o.
  rewrite (chat_completions_posts w req st st1 d tok Hjson Htok Htruthy).
  cbv zeta. cbn [fst snd].
  destruct (get_databricks_token_keeps w st) as [Hposted _].
  rewrite Htok in Hposted. cbn [snd] in Hposted.
  split; [| split].
  - unfold record_post. cbn [posted]. now rewrite Hposted.
  - unfold outbound. cbn [headers].
    rewrite x_anthropic_api_key_is_replace.
    unfold inbound_authorization, headers_get_default. now rewrite Hauth.
  - reflexivity.
Qed.

Lemma request_without_authorization_forwarded_witness :
  posted (snd (chat_completions Scenario.static_world
                 Scenario.anonymous_request Scenario.fresh_state))
    = [outbound Scenario.static_world Scenario.anonymous_request
         [("model", JStr "claude-sonnet"); ("stream", JBool false)]
         (JStr "dapi-0123") Scenario.fresh_state] /\
  lookup "x-anthropic-api-key"
    (headers (outbound Scenario.static_world Scenario.anonymous_request
                [("model", JStr "claude-sonnet"); ("stream", JBool false)]
                (JStr "dapi-0123") Scenario.fresh_state))
    = Some EmptyString.
Proof.
  destruct (request_without_authorization_forwarded Scenario.static_world
              Scenario.anonymous_request Scenario.fresh_state Scenario.fresh_state
              [("model", JStr "claude-sonnet"); ("stream", JBool false)]
              (JStr "dapi-0123") eq_refl eq_refl eq_refl eq_refl)
    as [Hposted [Hkey _]].
  split; [exact Hposted | exact Hkey].
Defined.

(** *** Streaming *)

Lemma join_cons (chunk : string) (rest : list string) :
  join (chunk :: rest) = chunk ++ join rest.
Proof. reflexivity. Qed.

Lemma join_generate (r : upstream_response) :
  join (generate r) = join (iter_content r).
Proof.
  unfold generate. induction (iter_content r) as [| chunk rest IH]; [reflexivity |].
  cbn [filter]. destruct chunk as [| c chunk']; cbn [is_empty negb].
  - rewrite join_cons. exact IH.
  - rewrite !join_cons. now rewrite IH.
Qed.

(** C8: for a streaming request that reaches the gateway and is answered
    200, the chunks sent to the caller are the non-empty chunks received, in
    the order received, so both concatenate to the same bytes; and the
    caller sees the media type [text/event-stream] whatever headers the
    gateway sent. *)
Theorem streamed_bytes_relayed :
  forall (w : world) (req : request) (st st1 : state)
         (d : list (string * json)) (tok : json) (r : upstream_response),
    get_json req = inr (JObj d) ->
    truthy (stream_flag d) = true ->
    get_databricks_token w st = (inr tok, st1) ->
    truthy tok = true ->
    requests_post w (outbound w req d tok st1) = PostReturns r ->
    status_code r = 200 ->
    let resp := fst (chat_completions w req st) in
    exists chunks,
      response_body resp = BodyStream chunks /\
      chunks = filter (fun chunk => negb (is_empty chunk)) (iter_content r) /\
      join chunks = join (iter_content r) /\
      media_type (content_type resp) = "text/event-stream" /\
      status resp = 200.
Proof.
  intros w req st st1 d tok r Hjson Hstream Htok Htruthy Hpost Hcode resp.
  subst resp.
  rewrite (chat_completions_posts w req st st1 d tok Hjson Htok Htruthy).
  cbv zeta. rewrite Hpost. cbn [fst]. unfold relayed.
  rewrite Hcode, Hstream. cbn [Z.eqb Pos.eqb negb].
  exists (generate r). repeat split. apply join_generate.
Qed.

Lemma streamed_bytes_relayed_witness :
  exists chunks,
    response_body (fst (chat_completions Scenario.static_world
                          Scenario.streaming_request Scenario.fresh_state))
      = BodyStream chunks /\
    chunks = ["data: a "; "data: b"] /\
    join chunks = "data: a data: b" /\
    media_type (content_type (fst (chat_completions Scenario.static_world
                                     Scenario.streaming_request Scenario.fresh_state)))
      = "text/event-stream" /\
    status (fst (chat_completions Scenario.static_world
                   Scenario.streaming_request Scenario.fresh_state)) = 200.
Proof.
  exact (streamed_bytes_relayed Scenario.static_world Scenario.streaming_request
           Scenario.fresh_state Scenario.fresh_state
           [("model", JStr "claude-sonnet"); ("stream", JBool true)]
           (JStr "dapi-0123") Scenario.event_stream
           eq_refl eq_refl eq_refl eq_refl eq_refl eq_refl).
Defined.

(** *** Instance discovery *)

Lemma same_proxy_healthy (m : Cli.machine) (W : string) :
  Cli.same_proxy W (Cli.urlopen_health m Cli.PROXY_PORT) = true
  <-> healthy_instance m W.
Proof.
  unfold healthy_instance, Cli.same_proxy. split.
  - destruct (Cli.urlopen_health m Cli.PROXY_PORT) as [e | data]; [discriminate |].
    destruct data as [| b | z | q | s | l | d]; try discriminate.
    cbn [get]. intro H. apply andb_true_iff in H as [Hstatus Hws].
    exists d. split; [reflexivity |].
    destruct (lookup "status" d) as [[| | | | s | |] |]; try discriminate.
    destruct (lookup "workspace" d) as [[| | | | s' | |] |]; try discriminate.
    cbn [eq_str] in *.
    apply String.eqb_eq in Hstatus. apply String.eqb_eq in Hws.
    now subst.
  - intros [d [-> [Hstatus Hws]]]. cbn [get]. rewrite Hstatus, Hws.
    cbn [eq_str]. now rewrite !String.eqb_refl.
Qed.

Lemma healthy_instance_one_workspace (m : Cli.machine) (W W' : string) :
  healthy_instance m W -> healthy_instance m W' -> W' = W.
Proof.
  intros [d [Hprobe [_ Hws]]] [d' [Hprobe' [_ Hws']]].
  rewrite Hprobe in Hprobe'. injection Hprobe' as <-.
  rewrite Hws in Hws'. now injection Hws' as ->.
Qed.

(** C4: [find_proxy_port], whose preferred port is [PROXY_PORT]: a
    healthy relay for [W] on that port gives [(PROXY_PORT, true)]; with no
    such relay and the port free to bind it gives [(PROXY_PORT, false)]; and
    against a healthy relay for [W], a call for another workspace never
    answers [true]: it gives the preferred port, or, that port being taken,
    the port the system assigns, with [false]. *)
Theorem find_proxy_port_reuses_or_claims :
  forall (m : Cli.machine) (W : string),
    (healthy_instance m W ->
       Cli.find_proxy_port m W = inr (Cli.PROXY_PORT, true)) /\
    (~ healthy_instance m W ->
       (exists p, Cli.bind m Cli.PROXY_PORT = Some p) ->
       Cli.find_proxy_port m W = inr (Cli.PROXY_PORT, false)) /\
    (forall W' : string,
       healthy_instance m W -> W' <> W ->
       (forall port running,
          Cli.find_proxy_port m W' = inr (port, running) -> running = false) /\
       (forall p, Cli.bind m Cli.PROXY_PORT = Some p ->
          Cli.find_proxy_port m W' = inr (Cli.PROXY_PORT, false)) /\
       (forall port,
          Cli.bind m Cli.PROXY_PORT = None -> Cli.bind m 0 = Some port ->
          Cli.find_proxy_port m W' = inr (port, false))).
Proof.
  intros m W.
  assert (Hmiss : forall V, ~ healthy_instance m V ->
            Cli.same_proxy V (Cli.urlopen_health m Cli.PROXY_PORT) = false).
  { intros V Hnot.
    destruct (Cli.same_proxy V _) eqn:E; [| reflexivity].
    exfalso. apply Hnot. now apply same_proxy_healthy. }
  split; [| split].
  - intro Hhealthy. apply same_proxy_healthy in Hhealthy.
    unfold Cli.find_proxy_port. now rewrite Hhealthy.
  - intros Hnot [p Hbind]. unfold Cli.find_proxy_port.
    now rewrite (Hmiss W Hnot), Hbind.
  - intros W' Hhealthy Hother.
    assert (Hnot : ~ healthy_instance m W').
    { intro H'. apply Hother. exact (healthy_instance_one_workspace m W W' Hhealthy H'). }
    unfold Cli.find_proxy_port. rewrite (Hmiss W' Hnot).
    split; [| split].
    + intros port running.
      destruct (Cli.bind m Cli.PROXY_PORT); [intro H; now injection H as _ <- |].
      destruct (Cli.bind m 0); [intro H; now injection H as _ <- | discriminate].
    + intros p Hbind. now rewrite Hbind.
    + intros port Hbusy Hany. now rewrite Hbusy, Hany.
Qed.

Lemma find_proxy_port_reuses_or_claims_witness :
  Cli.find_proxy_port Scenario.machine_with_relay Scenario.workspace
    = inr (8000, true) /\
  Cli.find_proxy_port Scenario.machine_with_relay "https://other.cloud.databricks.com"
    = inr (49152, false) /\
  Cli.find_proxy_port Scenario.idle_machine Scenario.workspace
    = inr (8000, false).
Proof.
  assert (Hrelay : healthy_instance Scenario.machine_with_relay Scenario.workspace).
  { exists [("status", JStr "ok"); ("workspace", JStr Scenario.workspace)].
    repeat split. }
  assert (Hidle : ~ healthy_instance Scenario.idle_machine Scenario.workspace).
  { intros [d [Hprobe _]]. discriminate Hprobe. }
  destruct (find_proxy_port_reuses_or_claims Scenario.machine_with_relay
              Scenario.workspace) as [Hreuse [_ Hother]].
  destruct (find_proxy_port_reuses_or_claims Scenario.idle_machine
              Scenario.workspace) as [_ [Hclaim _]].
  split; [exact (Hreuse Hrelay) | split].
  - destruct (Hother "https://other.cloud.databricks.com" Hrelay) as [_ [_ Hassigned]].
    + discriminate.
    + exact (Hassigned 49152 eq_refl eq_refl).
  - apply (Hclaim Hidle). exists 8000. reflexivity.
Defined.

(** ** The refresh and the cache *)

Import Behaviour.

(** A refresh ends in one of two ways: nothing stored and [None], or a
    true token stored and returned. *)
Lemma refresh_outcome (w : world) (now : Q) (st : state) :
  let r := try_except (refresh w now) (fun _ => ret JNull) st in
  r = (inr JNull, attempted st) \/
  exists token e,
    truthy token = true /\ r = (inr token, refreshed token e st).
Proof.
  unfold try_except, refresh, bind, gets, run, lift, modify, ret,
    attempted, refreshed, record_spawn, set_token_cache.
  cbn. refresh_cases; auto.
  right. eexists _, _. split; [eassumption | reflexivity].
Qed.

(** A refresh whose broker printed a token, step by step. *)
Lemma refresh_with_token (w : world) (st : state)
  (d : list (string * json)) (token : json) :
  reaches_broker w st ->
  broker_prints w st d ->
  lookup "access_token" d = Some token ->
  truthy token = true ->
  get_databricks_token w st =
    match expiry_of w (time_time w) (expiry_field d) with
    | inr e => (inr token, refreshed token e st)
    | inl _ => (inr JNull, attempted st)
    end.
Proof.
  intros [Hstatic Hstale] [p [Hrun [Hcode Hout]]] Htoken Htruthy.
  rewrite (get_databricks_token_refreshes w st Hstatic Hstale).
  unfold try_except, refresh, bind, gets, run, lift, modify, ret,
    attempted, refreshed, record_spawn, set_token_cache, expiry_field.
  cbn. rewrite Hrun, Hcode. cbn. rewrite Hout. cbn. rewrite Htoken, Htruthy.
  destruct (expiry_of w (time_time w) _); reflexivity.
Qed.

(** A call that finds the override unset and a true token in the cache,
    more than 60 seconds from its expiry, answers from the cache. *)
Lemma cache_hit (w : world) (st : state) :
  static_token w = None ->
  truthy (access_token (_token_cache st)) = true ->
  (time_time w < expiry (_token_cache st) - 60)%Q ->
  get_databricks_token w st = (inr (access_token (_token_cache st)), st).
Proof.
  intros Hstatic Htruthy Hlt.
  unfold get_databricks_token, bind, gets. rewrite Hstatic.
  unfold cache_fresh. rewrite Htruthy. cbn [andb].
  apply Qltb_lt in Hlt. now rewrite Hlt.
Qed.

(** What a refresh returns comes from the broker's run of this call:
    [None], or the token that run offers. *)
Lemma refresh_value (w : world) (now : Q) (st : state) :
  let r := try_except (refresh w now) (fun _ => ret JNull) st in
  fst r = inr JNull \/
  exists token, fst r = inr token /\ broker_offers w st token.
Proof.
  unfold try_except, refresh, bind, gets, run, lift, modify, ret. cbn.
  destruct (subprocess_run w (broker_argv (DATABRICKS_HOST st))) as [e | p] eqn:Hrun;
    cbn; [auto |].
  destruct (returncode p =? 0) eqn:Hcode; cbn; [| auto].
  apply Z.eqb_eq in Hcode.
  destruct (stdout_json p) as [e | data] eqn:Hout; cbn; [auto |].
  destruct data as [| b | z | q | s | l | d]; cbn; auto.
  destruct (lookup "access_token" d) as [token |] eqn:Hlookup; cbn; [| auto].
  destruct (truthy token) eqn:Htruthy; cbn; [| auto].
  destruct (expiry_of w now _) as [e | e']; cbn; [auto |].
  right. exists token. split; [reflexivity |].
  exists d. split; [exists p; auto | auto].
Qed.

(** *** The cache and its margin *)

(** C5, as stated, fails: the cache holds [oauth-1] with exactly 60
    seconds left and the broker issues [oauth-1] again; the call returns
    the very value that was cached.  What the margin rules out is serving
    the cache without asking the broker, not the value. *)
Lemma reissued_token_returned_inside_margin :
  static_token Cases.reissuing_world = None /\
  access_token (_token_cache (Scenario.cached_state "oauth-1" 1060)) = JStr "oauth-1" /\
  (expiry (_token_cache (Scenario.cached_state "oauth-1" 1060))
     - time_time Cases.reissuing_world <= 60)%Q /\
  fst (get_databricks_token Cases.reissuing_world (Scenario.cached_state "oauth-1" 1060))
    = inr (access_token (_token_cache (Scenario.cached_state "oauth-1" 1060))) /\
  spawned (snd (get_databricks_token Cases.reissuing_world
                  (Scenario.cached_state "oauth-1" 1060)))
    = [broker_argv Scenario.workspace].
Proof.
  split; [reflexivity | split; [reflexivity | split; [| split; reflexivity]]].
  unfold Qle. cbn. lia.
Qed.

(** C5, amended: with no override and a token in the cache, the call
    answers from the cache, running nothing, exactly when more than 60
    seconds remain to the expiry.  With 60 seconds or less (the boundary
    included) it runs the broker once, and what it returns is decided by
    that run and not by the cache: [None], or the token the broker has just
    printed; when the broker prints a true token with an expiry that
    converts, that token is returned.  So the cached value comes back
    inside the margin only if the broker issues it again. *)
Theorem cached_token_served_only_outside_margin :
  forall (w : world) (st : state),
    static_token w = None ->
    truthy (access_token (_token_cache st)) = true ->
    let remaining := (expiry (_token_cache st) - time_time w)%Q in
    let returned := fst (get_databricks_token w st) in
    let st' := snd (get_databricks_token w st) in
    ((60 < remaining)%Q ->
       get_databricks_token w st = (inr (access_token (_token_cache st)), st)) /\
    ((remaining <= 60)%Q ->
       spawned st' = (spawned st ++ [broker_argv (DATABRICKS_HOST st)])%list /\
       (returned = inr JNull \/
        exists token, returned = inr token /\ broker_offers w st token) /\
       (forall (d : list (string * json)) (token : json) (e : Q),
          broker_prints w st d ->
          lookup "access_token" d = Some token ->
          truthy token = true ->
          expiry_of w (time_time w) (expiry_field d) = inr e ->
          returned = inr token)) /\
    (spawned st' = spawned st <-> (60 < remaining)%Q).
Proof.
  intros w st Hstatic Hcached remaining returned st'.
  assert (Hhit : (60 < remaining)%Q ->
            get_databricks_token w st = (inr (access_token (_token_cache st)), st)).
  { intro Hlt. apply cache_hit; [exact Hstatic | exact Hcached |].
    unfold remaining in Hlt. lra. }
  assert (Hstale : (remaining <= 60)%Q ->
            cache_fresh (time_time w) (_token_cache st) = false).
  { intro Hle. unfold cache_fresh. rewrite Hcached. cbn [andb].
    destruct (Qltb (time_time w) (expiry (_token_cache st) - 60)) eqn:E;
      [| reflexivity].
    apply Qltb_lt in E. unfold remaining in Hle. lra. }
  assert (Hrun : (remaining <= 60)%Q ->
            spawned st' = (spawned st ++ [broker_argv (DATABRICKS_HOST st)])%list).
  { intro Hle. unfold st'.
    rewrite (get_databricks_token_refreshes w st Hstatic (Hstale Hle)).
    apply refresh_effects. }
  split; [exact Hhit | split].
  - intro Hle. split; [exact (Hrun Hle) | split].
    + unfold returned.
      rewrite (get_databricks_token_refreshes w st Hstatic (Hstale Hle)).
      apply refresh_value.
    + intros d token e Hprints Hlookup Htruthy Hexpiry. unfold returned.
      rewrite (refresh_with_token w st d token
                 (conj Hstatic (Hstale Hle)) Hprints Hlookup Htruthy).
      now rewrite Hexpiry.
  - split.
    + intro Hsame. destruct (Qlt_le_dec 60 remaining) as [Hlt | Hle]; [exact Hlt |].
      exfalso. rewrite (Hrun Hle) in Hsame. exact (list_app_one_neq _ _ Hsame).
    + intro Hlt. unfold st'. now rewrite (Hhit Hlt).
Qed.

(** At the boundary, 60 seconds left: the broker is run and its token,
    not the cached one, is returned. *)
Lemma cached_token_served_only_outside_margin_witness :
  spawned (snd (get_databricks_token Scenario.logged_in_world
                  (Scenario.cached_state "stale-oauth-token" 1060)))
    = [broker_argv Scenario.workspace] /\
  fst (get_databricks_token Scenario.logged_in_world
         (Scenario.cached_state "stale-oauth-token" 1060)) = inr (JStr "oauth-1").
Proof.
  destruct (cached_token_served_only_outside_margin Scenario.logged_in_world
              (Scenario.cached_state "stale-oauth-token" 1060) eq_refl eq_refl)
    as [_ [Hwithin _]].
  assert (Hboundary : (1060 - 1000 <= 60)%Q) by (unfold Qle; cbn; lia).
  destruct (Hwithin Hboundary) as [Hspawned [_ Hreturned]].
  split; [exact Hspawned |].
  apply (Hreturned [("access_token", JStr "oauth-1"); ("expiry", JInt 5000)]
           (JStr "oauth-1") 5000%Q).
  - eexists. split; [reflexivity | split; reflexivity].
  - reflexivity.
  - reflexivity.
  - reflexivity.
Defined.

(** ** Beyond the ten claims: the credential provider *)

(** X1: the provider always returns, and what it returns is [None] or a
    true value; so the route's test [if not databricks_token] is the test
    for [None]. *)
Theorem provider_returns_None_or_token :
  forall (w : world) (st : state),
    exists v st',
      get_databricks_token w st = (inr v, st') /\
      (v = JNull \/ truthy v = true).
Proof.
  intros w st. unfold get_databricks_token.
  destruct (static_token w) as [t |] eqn:Hstatic.
  - exists (JStr t), st. split; [reflexivity | right].
    unfold static_token in Hstatic.
    destruct (environ_DATABRICKS_TOKEN w) as [t' |]; [| discriminate].
    destruct t' as [| c t'']; cbn in Hstatic; [discriminate |].
    now injection Hstatic as <-.
  - unfold bind, gets.
    destruct (cache_fresh (time_time w) (_token_cache st)) eqn:Hfresh.
    + exists (access_token (_token_cache st)), st. split; [reflexivity | right].
      unfold cache_fresh in Hfresh. now apply andb_true_iff in Hfresh.
    + destruct (refresh_outcome w (time_time w) st) as [H | [token [e [Htruthy H]]]];
        rewrite H; eauto.
Qed.

(** X2: one call runs the broker at most once, always as
    [databricks auth token --host <the relay's host>]; it never posts and
    never changes the host; and the cache is left as it was unless the call
    returns a token from the broker, which is then what the cache holds. *)
Theorem provider_effects_bounded :
  forall (w : world) (st : state),
    let v := fst (get_databricks_token w st) in
    let st' := snd (get_databricks_token w st) in
    (spawned st' = spawned st \/
     spawned st' = (spawned st ++ [["databricks"; "auth"; "token"; "--host";
                                     DATABRICKS_HOST st]])%list) /\
    posted st' = posted st /\
    DATABRICKS_HOST st' = DATABRICKS_HOST st /\
    (_token_cache st' = _token_cache st \/
     (v = inr (access_token (_token_cache st')) /\
      truthy (access_token (_token_cache st')) = true /\
      spawned st' <> spawned st)).
Proof.
  intros w st. cbv zeta. unfold get_databricks_token.
  destruct (static_token w); [cbn; auto |].
  unfold bind, gets.
  destruct (cache_fresh (time_time w) (_token_cache st)); [cbn; auto |].
  destruct (refresh_outcome w (time_time w) st) as [H | [token [e [Htruthy H]]]];
    rewrite H; cbn.
  - auto.
  - repeat split; auto. right. repeat split; auto.
    apply list_app_one_neq.
Qed.

(** X3: when the broker prints a true token and the expiry converts to
    [e], the token is returned and the cache holds it with expiry [e]; a
    numeric expiry (a non-zero float, or a non-zero integer a float holds
    exactly) is taken as it is, a string goes through the ISO parser with
    every [Z] replaced by [+00:00]. *)
Theorem refresh_success_caches :
  forall (w : world) (st : state) (d : list (string * json)) (token : json),
    reaches_broker w st ->
    broker_prints w st d ->
    lookup "access_token" d = Some token ->
    truthy token = true ->
    (forall e, expiry_of w (time_time w) (expiry_field d) = inr e ->
       get_databricks_token w st = (inr token, refreshed token e st)) /\
    (forall q, expiry_field d = JFloat q -> ~ (q == 0)%Q ->
       get_databricks_token w st = (inr token, refreshed token q st)) /\
    (forall z, expiry_field d = JInt z -> z <> 0 -> Z.abs z <= 2 ^ 53 ->
       get_databricks_token w st = (inr token, refreshed token (inject_Z z) st)) /\
    (forall s t, expiry_field d = JStr s ->
       fromisoformat_timestamp w (replace "Z" "+00:00" s) = IsoTimestamp t ->
       get_databricks_token w st = (inr token, refreshed token t st)).
Proof.
  intros w st d token Hreach Hprints Htoken Htruthy.
  pose proof (refresh_with_token w st d token Hreach Hprints Htoken Htruthy) as Hstep.
  split; [| split; [| split]].
  - intros e He. now rewrite Hstep, He.
  - intros q Hq Hnz. rewrite Hstep, Hq. cbn [expiry_of truthy float].
    destruct (Qeq_bool q 0) eqn:E; [| reflexivity].
    apply Qeq_bool_iff in E. contradiction.
  - intros z Hz Hnz Hrange. rewrite Hstep, Hz. cbn [expiry_of truthy float].
    apply Z.eqb_neq in Hnz. rewrite Hnz. cbn [negb].
    assert (Hfits : 2 ^ 53 < 2 ^ 1024 - 2 ^ 970) by reflexivity.
    assert (Hlt : Z.abs z < 2 ^ 1024 - 2 ^ 970)
      by (eapply Z.le_lt_trans; eassumption).
    unfold float_of_int. apply Z.ltb_lt in Hlt. now rewrite Hlt.
  - intros s t Hs Hiso. rewrite Hstep, Hs. cbn [expiry_of]. now rewrite Hiso.
Qed.

Lemma refresh_success_caches_witness :
  get_databricks_token Scenario.logged_in_world Scenario.fresh_state
    = (inr (JStr "oauth-1"),
       refreshed (JStr "oauth-1") (inject_Z 5000) Scenario.fresh_state).
Proof.
  destruct (refresh_success_caches Scenario.logged_in_world Scenario.fresh_state
              Cases.token_object (JStr "oauth-1")) as [_ [_ [Hint _]]].
  - split; reflexivity.
  - eexists. repeat split.
  - reflexivity.
  - reflexivity.
  - apply (Hint 5000); [reflexivity | discriminate | vm_compute; discriminate].
Defined.

(** X4: a token printed without a usable expiry (missing, [null], zero,
    or a string the ISO parser rejects) is cached as expiring 3600 seconds
    after the call. *)
Theorem token_without_expiry_lives_an_hour :
  forall (w : world) (st : state) (d : list (string * json)) (token : json),
    reaches_broker w st ->
    broker_prints w st d ->
    lookup "access_token" d = Some token ->
    truthy token = true ->
    expiry_unknown w (expiry_field d) ->
    get_databricks_token w st
      = (inr token, refreshed token (time_time w + 3600)%Q st).
Proof.
  intros w st d token Hreach Hprints Htoken Htruthy Hunknown.
  rewrite (refresh_with_token w st d token Hreach Hprints Htoken Htruthy).
  unfold expiry_unknown in Hunknown. unfold expiry_of.
  destruct (expiry_field d); try (rewrite Hunknown; reflexivity).
Qed.

Lemma token_without_expiry_lives_an_hour_witness :
  get_databricks_token Cases.undated_world Scenario.fresh_state
    = (inr (JStr "oauth-2"),
       refreshed (JStr "oauth-2") (1000 + 3600)%Q Scenario.fresh_state).
Proof.
  apply (token_without_expiry_lives_an_hour Cases.undated_world
           Scenario.fresh_state [("access_token", JStr "oauth-2")]).
  - split; reflexivity.
  - eexists. repeat split.
  - reflexivity.
  - reflexivity.
  - reflexivity.
Defined.

(** X5: a token printed with an expiry that cannot be converted (a
    non-empty list or object, an integer beyond the float range, a parser
    failure other than [ValueError]) is dropped: the provider returns
    [None] and the cache keeps what it held. *)
Theorem unconvertible_expiry_discards_token :
  forall (w : world) (st : state) (d : list (string * json)) (token : json),
    reaches_broker w st ->
    broker_prints w st d ->
    lookup "access_token" d = Some token ->
    truthy token = true ->
    expiry_unconvertible w (expiry_field d) ->
    get_databricks_token w st = (inr JNull, attempted st) /\
    _token_cache (snd (get_databricks_token w st)) = _token_cache st.
Proof.
  intros w st d token Hreach Hprints Htoken Htruthy Hbad.
  rewrite (refresh_with_token w st d token Hreach Hprints Htoken Htruthy).
  assert (Hraises : exists e, expiry_of w (time_time w) (expiry_field d) = inl e).
  { unfold expiry_of.
    inversion Hbad as [x l Heq | kv d' Heq | z Hhuge Heq | s e Hiso Heq];
      cbn [truthy float].
    - eauto.
    - eauto.
    - destruct (negb (z =? 0)) eqn:Hz.
      + unfold float_of_int.
        destruct (Z.abs z <? 2 ^ 1024 - 2 ^ 970) eqn:Hlt; [| eauto].
        apply Z.ltb_lt in Hlt. lia.
      + apply negb_false_iff in Hz. apply Z.eqb_eq in Hz. subst z.
        cbn in Hhuge. lia.
    - rewrite Hiso. eauto. }
  destruct Hraises as [e He]. rewrite He. split; reflexivity.
Qed.

Lemma unconvertible_expiry_discards_token_witness :
  get_databricks_token Cases.garbled_world Scenario.fresh_state
    = (inr JNull, attempted Scenario.fresh_state).
Proof.
  apply (unconvertible_expiry_discards_token Cases.garbled_world
           Scenario.fresh_state
           [("access_token", JStr "oauth-3"); ("expiry", JArr [JInt 5000])]
           (JStr "oauth-3")).
  - split; reflexivity.
  - eexists. repeat split.
  - reflexivity.
  - reflexivity.
  - apply expiry_is_list.
Defined.

(** X6: once a refresh has stored a token with expiry [e], any later
    call made with the override unset returns that token without running
    the broker as long as its clock reads less than [e - 60], and runs the
    broker again from then on. *)
Theorem cached_token_reused_until_margin :
  forall (w w' : world) (st : state) (token : json) (e : Q),
    get_databricks_token w st = (inr token, refreshed token e st) ->
    truthy token = true ->
    static_token w' = None ->
    let st1 := refreshed token e st in
    ((time_time w' < e - 60)%Q ->
       get_databricks_token w' st1 = (inr token, st1)) /\
    ((e - 60 <= time_time w')%Q ->
       spawned (snd (get_databricks_token w' st1))
         = (spawned st1 ++ [broker_argv (DATABRICKS_HOST st1)])%list).
Proof.
  intros w w' st token e _ Htruthy Hstatic st1. split.
  - intro Hlt.
    exact (cache_hit w' st1 Hstatic Htruthy Hlt).
  - intro Hle.
    assert (Hstale : cache_fresh (time_time w') (_token_cache st1) = false).
    { unfold cache_fresh. cbn. rewrite Htruthy. cbn [andb].
      destruct (Qltb _ _) eqn:E; [| reflexivity].
      apply Qltb_lt in E. lra. }
    rewrite (get_databricks_token_refreshes w' st1 Hstatic Hstale).
    apply refresh_effects.
Qed.

Lemma cached_token_reused_until_margin_witness :
  get_databricks_token (Cases.later_world 4939)
    (refreshed (JStr "oauth-1") (inject_Z 5000) Scenario.fresh_state)
  = (inr (JStr "oauth-1"),
     refreshed (JStr "oauth-1") (inject_Z 5000) Scenario.fresh_state) /\
  spawned (snd (get_databricks_token (Cases.later_world 4940)
             (refreshed (JStr "oauth-1") (inject_Z 5000) Scenario.fresh_state)))
  = [broker_argv Scenario.workspace; broker_argv Scenario.workspace].
Proof.
  destruct (cached_token_reused_until_margin Scenario.logged_in_world
              (Cases.later_world 4939) Scenario.fresh_state (JStr "oauth-1")
              (inject_Z 5000) eq_refl eq_refl eq_refl) as [Hbefore _].
  destruct (cached_token_reused_until_margin Scenario.logged_in_world
              (Cases.later_world 4940) Scenario.fresh_state (JStr "oauth-1")
              (inject_Z 5000) eq_refl eq_refl eq_refl) as [_ Hafter].
  split.
  - apply Hbefore. unfold Qlt. cbn. lia.
  - apply Hafter. unfold Qle. cbn. lia.
Defined.

(** ** Beyond the ten claims: the proxied route *)

Lemma get_databricks_token_spawns (w : world) (st : state) :
  let st' := snd (get_databricks_token w st) in
  spawned st' = spawned st \/
  spawned st' = (spawned st ++ [broker_argv (DATABRICKS_HOST st)])%list.
Proof.
  cbv zeta. unfold get_databricks_token.
  destruct (static_token w); [cbn; auto |].
  unfold bind, gets.
  destruct (cache_fresh (time_time w) (_token_cache st)); [cbn; auto |].
  right. apply refresh_effects.
Qed.

(** A request whose document is not an object ends in the last handler
    before anything else is done. *)
Lemma chat_completions_not_object (w : world) (req : request) (st : state)
  (v : json) :
  get_json req = inr v ->
  (forall d, v <> JObj d) ->
  exists e,
    exn_cls e = OtherException /\
    chat_completions w req st = (chat_completions_except e, st).
Proof.
  intros Hjson Hnot.
  unfold chat_completions, chat_completions_try, bind, lift. rewrite Hjson.
  destruct v as [| b | z | q | s | l | d];
    try (exfalso; exact (Hnot d eq_refl));
    exists (Exn OtherException "object has no attribute 'get'");
    split; reflexivity.
Qed.

Lemma chat_completions_raising_document (w : world) (req : request) (st : state)
  (e : exn) :
  get_json req = inl e ->
  chat_completions w req st = (chat_completions_except e, st).
Proof.
  intros Hjson.
  unfold chat_completions, chat_completions_try, bind, lift. now rewrite Hjson.
Qed.



(** X8: a request that does not ask for a stream (its ["stream"] field
    is missing or false) and is answered 200 gets the gateway's body byte
    for byte, with the gateway's [Content-Type], looked up without regard to
    case, or [application/json] when the gateway sent none. *)
Theorem buffered_answer_passed_through :
  forall (w : world) (req : request) (st st1 : state)
         (d : list (string * json)) (tok : json) (r : upstream_response)
         (float_repr : Q -> string),
    get_json req = inr (JObj d) ->
    truthy (stream_flag d) = false ->
    get_databricks_token w st = (inr tok, st1) ->
    truthy tok = true ->
    requests_post w (outbound w req d tok st1) = PostReturns r ->
    status_code r = 200 ->
    let resp := fst (chat_completions w req st) in
    status resp = 200 /\
    body_bytes float_repr (response_body resp) = content r /\
    content_type resp
      = match headers_get (upstream_headers r) "Content-Type" with
        | Some ct => ct
        | None => "application/json"
        end.
Proof.
  intros w req st st1 d tok r fr Hjson Hflag Htok Htruthy Hpost Hcode resp.
  subst resp.
  rewrite (chat_completions_posts w req st st1 d tok Hjson Htok Htruthy).
  cbv zeta. rewrite Hpost. cbn [fst]. unfold relayed.
  rewrite Hcode, Hflag. cbn. repeat split.
Qed.

Lemma buffered_answer_passed_through_witness :
  status (fst (chat_completions Cases.answering_world
                 Scenario.cli_request Scenario.fresh_state)) = 200 /\
  body_bytes (fun _ => EmptyString)
    (response_body (fst (chat_completions Cases.answering_world
                           Scenario.cli_request Scenario.fresh_state))) = "{}" /\
  content_type (fst (chat_completions Cases.answering_world
                       Scenario.cli_request Scenario.fresh_state))
    = "application/json; charset=utf-8".
Proof.
  exact (buffered_answer_passed_through Cases.answering_world Scenario.cli_request
           Scenario.fresh_state Scenario.fresh_state Cases.plain_document
           (JStr "dapi-0123") Cases.plain_answer (fun _ => EmptyString)
           eq_refl eq_refl eq_refl eq_refl eq_refl eq_refl).
Defined.

(** X9: when posting to the gateway raises, the request was sent once
    and the caller gets a local error: 504 with type ["timeout_error"] for a
    timeout; 500 with type ["connection_error"] and the exception's text for
    any other [RequestException]; 500 with type ["proxy_error"] and the
    exception's text for anything else. *)
Theorem transport_failures_mapped :
  forall (w : world) (req : request) (st st1 : state)
         (d : list (string * json)) (tok : json) (e : exn),
    get_json req = inr (JObj d) ->
    get_databricks_token w st = (inr tok, st1) ->
    truthy tok = true ->
    requests_post w (outbound w req d tok st1) = PostRaises e ->
    let resp := fst (chat_completions w req st) in
    posted (snd (chat_completions w req st))
      = (posted st1 ++ [outbound w req d tok st1])%list /\
    content_type resp = "application/json" /\
    match exn_cls e with
    | Timeout =>
        status resp = 504 /\
        response_body resp = BodyJson (local_error "Request timed out" "timeout_error")
    | RequestException =>
        status resp = 500 /\
        response_body resp = BodyJson (local_error (exn_msg e) "connection_error")
    | OtherException =>
        status resp = 500 /\
        response_body resp = BodyJson (local_error (exn_msg e) "proxy_error")
    end.
Proof.
  intros w req st st1 d tok e Hjson Htok Htruthy Hpost resp. subst resp.
  rewrite (chat_completions_posts w req st st1 d tok Hjson Htok Htruthy).
  cbv zeta. rewrite Hpost. cbn [fst snd]. unfold chat_completions_except.
  destruct (exn_cls e); repeat split.
Qed.

Lemma transport_failures_mapped_witness :
  status (fst (chat_completions Cases.refused_world
                 Scenario.cli_request Scenario.fresh_state)) = 500 /\
  response_body (fst (chat_completions Cases.refused_world
                        Scenario.cli_request Scenario.fresh_state))
    = BodyJson (local_error "Connection refused" "connection_error").
Proof.
  destruct (transport_failures_mapped Cases.refused_world Scenario.cli_request
              Scenario.fresh_state Scenario.fresh_state Cases.plain_document
              (JStr "dapi-0123") (Exn RequestException "Connection refused")
              eq_refl eq_refl eq_refl eq_refl) as [_ [_ Hmapped]].
  exact Hmapped.
Defined.

(** X10: a request whose document is not a JSON object ([null], a
    list, a number, a string) is answered 500 with type ["proxy_error"], and
    nothing else happens: no credential is looked up, no broker is run,
    nothing is posted. *)
Theorem document_not_object_rejected_locally :
  forall (w : world) (req : request) (st : state) (v : json),
    get_json req = inr v ->
    (forall d, v <> JObj d) ->
    snd (chat_completions w req st) = st /\
    status (fst (chat_completions w req st)) = 500 /\
    exists message,
      response_body (fst (chat_completions w req st))
        = BodyJson (local_error message "proxy_error").
Proof.
  intros w req st v Hjson Hnot.
  destruct (chat_completions_not_object w req st v Hjson Hnot) as [e [Hcls Hrun]].
  rewrite Hrun. cbn [fst snd]. unfold chat_completions_except. rewrite Hcls.
  repeat split. exists (exn_msg e). reflexivity.
Qed.

Lemma document_not_object_rejected_locally_witness :
  snd (chat_completions Scenario.oauth_world Cases.list_request Scenario.fresh_state)
    = Scenario.fresh_state /\
  status (fst (chat_completions Scenario.oauth_world Cases.list_request
                 Scenario.fresh_state)) = 500.
Proof.
  destruct (document_not_object_rejected_locally Scenario.oauth_world
              Cases.list_request Scenario.fresh_state (JArr [JInt 1]) eq_refl)
    as [Hstate [Hstatus _]].
  - intros d H. discriminate H.
  - split; [exact Hstate | exact Hstatus].
Defined.

(** X11: serving one request runs the broker at most once and posts at
    most once (there is no retry), leaves the host alone, and what it posts
    goes to the messages endpoint of the relay's host with the inbound
    document unmodified, a timeout of 180 seconds, the traffic tag and the
    JSON content type. *)
Theorem one_request_at_most_one_post :
  forall (w : world) (req : request) (st : state),
    let st' := snd (chat_completions w req st) in
    DATABRICKS_HOST st' = DATABRICKS_HOST st /\
    (spawned st' = spawned st \/
     spawned st' = (spawned st ++ [broker_argv (DATABRICKS_HOST st)])%list) /\
    (posted st' = posted st \/
     exists o,
       posted st' = (posted st ++ [o])%list /\
       url o = messages_url st /\
       get_json req = inr (json_body o) /\
       timeout o = 180 /\
       lookup "x-databricks-traffic-id" (headers o)
         = Some "testenv://liteswap/claude_max" /\
       lookup "Content-Type" (headers o) = Some "application/json").
Proof.
  intros w req st. cbv zeta.
  destruct (get_json req) as [e | v] eqn:Hjson.
  - rewrite (chat_completions_raising_document w req st e Hjson). cbn; auto.
  - assert (Hobject : (forall d, v <> JObj d) \/ exists d, v = JObj d).
    { destruct v; try (left; intros d H; discriminate H). right. eauto. }
    destruct Hobject as [Hnot | [d ->]].
    + destruct (chat_completions_not_object w req st v Hjson Hnot) as [e [_ Hrun]].
      rewrite Hrun. cbn; auto.
    + destruct (get_databricks_token_never_raises w st) as [tok [st1 Htok]].
      pose proof (get_databricks_token_keeps w st) as [Hposted Hhost].
      pose proof (get_databricks_token_spawns w st) as Hspawned.
      rewrite Htok in Hposted, Hhost, Hspawned. cbn [snd] in *.
      destruct (truthy tok) eqn:Htruthy.
      * rewrite (chat_completions_posts w req st st1 d tok Hjson Htok Htruthy).
        cbv zeta. cbn [snd]. unfold record_post. cbn [DATABRICKS_HOST spawned posted].
        split; [exact Hhost | split; [exact Hspawned | right]].
        exists (outbound w req d tok st1).
        unfold outbound, messages_url. cbn [url json_body timeout headers].
        rewrite Hposted, Hhost. repeat split.
      * rewrite (chat_completions_unavailable w req st st1 d tok Hjson Htok Htruthy).
        cbn [snd]. auto.
Qed.

(** X12: with the override [DATABRICKS_TOKEN] set (to a value), serving
    a request never runs the broker and never touches the cache; and a
    request whose document is an object goes out with
    [Authorization: Bearer <the override>]. *)
Theorem override_serves_without_broker :
  forall (w : world) (req : request) (st : state) (t : string),
    environ_DATABRICKS_TOKEN w = Some t ->
    t <> EmptyString ->
    let st' := snd (chat_completions w req st) in
    spawned st' = spawned st /\
    _token_cache st' = _token_cache st /\
    forall d, get_json req = inr (JObj d) ->
      exists o,
        posted st' = (posted st ++ [o])%list /\
        lookup "Authorization" (headers o) = Some ("Bearer " ++ t).
Proof.
  intros w req st t Henv Hne. cbv zeta.
  assert (Htok : get_databricks_token w st = (inr (JStr t), st)).
  { unfold get_databricks_token. now rewrite (static_token_set w t Henv Hne). }
  assert (Htruthy : truthy (JStr t) = true).
  { destruct t; [congruence | reflexivity]. }
  destruct (get_json req) as [e | v] eqn:Hjson.
  - rewrite (chat_completions_raising_document w req st e Hjson).
    cbn [snd]. repeat split. intros d H. discriminate H.
  - assert (Hobject : (forall d, v <> JObj d) \/ exists d, v = JObj d).
    { destruct v; try (left; intros d H; discriminate H). right. eauto. }
    destruct Hobject as [Hnot | [d ->]].
    + destruct (chat_completions_not_object w req st v Hjson Hnot) as [e [_ Hrun]].
      rewrite Hrun. cbn [snd]. repeat split.
      intros d H. injection H as ->. exfalso. exact (Hnot d eq_refl).
    + rewrite (chat_completions_posts w req st st d (JStr t) Hjson Htok Htruthy).
      cbv zeta. cbn [snd]. repeat split.
      intros d' _. exists (outbound w req d (JStr t) st). split; reflexivity.
Qed.

Lemma override_serves_without_broker_witness :
  spawned (snd (chat_completions Scenario.static_world Scenario.cli_request
                  (Scenario.cached_state "stale-oauth-token" 0))) = [] /\
  _token_cache (snd (chat_completions Scenario.static_world Scenario.cli_request
                       (Scenario.cached_state "stale-oauth-token" 0)))
    = {| access_token := JStr "stale-oauth-token"; expiry := 0 |}.
Proof.
  destruct (override_serves_without_broker Scenario.static_world
              Scenario.cli_request (Scenario.cached_state "stale-oauth-token" 0)
              "dapi-0123" eq_refl) as [Hspawned [Hcache _]].
  - discriminate.
  - split; [exact Hspawned | exact Hcache].
Defined.

(** ** Beyond the ten claims: instance discovery *)

(** X13: [find_proxy_port] says "already running" only for the
    preferred port, and only when a healthy relay for that very workspace
    answered the probe there. *)
Theorem reuse_only_for_matching_relay :
  forall (m : Cli.machine) (W : string) (port : Z),
    Cli.find_proxy_port m W = inr (port, true) ->
    port = Cli.PROXY_PORT /\ healthy_instance m W.
Proof.
  intros m W port. unfold Cli.find_proxy_port.
  destruct (Cli.same_proxy W (Cli.urlopen_health m Cli.PROXY_PORT)) eqn:Hsame.
  - intro H. injection H as <-. split; [reflexivity |].
    now apply same_proxy_healthy.
  - destruct (Cli.bind m Cli.PROXY_PORT); [discriminate |].
    destruct (Cli.bind m 0); discriminate.
Qed.

Lemma reuse_only_for_matching_relay_witness :
  8000 = Cli.PROXY_PORT /\
  healthy_instance Scenario.machine_with_relay Scenario.workspace.
Proof.
  exact (reuse_only_for_matching_relay Scenario.machine_with_relay
           Scenario.workspace 8000 eq_refl).
Defined.

(** X14: [find_proxy_port] raises exactly when no matching relay
    answers and neither the preferred port nor a system-assigned one can be
    bound; otherwise the port it returns with [false] is the preferred one
    if that could be bound, and the assigned one if not. *)
Theorem discovery_fails_only_without_ports :
  forall (m : Cli.machine) (W : string),
    ((exists e, Cli.find_proxy_port m W = inl e) <->
     (~ healthy_instance m W /\
      Cli.bind m Cli.PROXY_PORT = None /\ Cli.bind m 0 = None)) /\
    (forall port,
       Cli.find_proxy_port m W = inr (port, false) <->
       (~ healthy_instance m W /\
        ((port = Cli.PROXY_PORT /\ exists p, Cli.bind m Cli.PROXY_PORT = Some p) \/
         (Cli.bind m Cli.PROXY_PORT = None /\ Cli.bind m 0 = Some port)))).
Proof.
  intros m W. unfold Cli.find_proxy_port.
  pose proof (same_proxy_healthy m W) as Hiff.
  destruct (Cli.same_proxy W (Cli.urlopen_health m Cli.PROXY_PORT)) eqn:Hsame.
  - assert (Hhealthy : healthy_instance m W) by (now apply Hiff).
    split; [| intro port]; split.
    + intros [e H]. discriminate H.
    + intros [Hnot _]. contradiction.
    + intro H. discriminate H.
    + intros [Hnot _]. contradiction.
  - assert (Hnot : ~ healthy_instance m W).
    { intro H. apply Hiff in H. discriminate H. }
    destruct (Cli.bind m Cli.PROXY_PORT) as [p |] eqn:Hpref.
    + split; [| intro port]; split.
      * intros [e H]. discriminate H.
      * intros [_ [H _]]. discriminate H.
      * intro H. injection H as <-. split; [exact Hnot | left; eauto].
      * intros [_ [[-> _] | [H _]]]; [reflexivity | discriminate H].
    + destruct (Cli.bind m 0) as [q |] eqn:Hany.
      * split; [| intro port]; split.
        -- intros [e H]. discriminate H.
        -- intros [_ [_ H]]. discriminate H.
        -- intro H. injection H as <-. split; [exact Hnot | right; auto].
        -- intros [_ [[_ [p H]] | [_ H]]]; [discriminate H |].
           now injection H as <-.
      * split; [| intro port]; split.
        -- intros _. auto.
        -- intros _. eauto.
        -- intro H. discriminate H.
        -- intros [_ [[_ [p H]] | [_ H]]]; discriminate H.
Qed.

(** X15: the relay of [databricks_claude/proxy.py] is never reused.
    When the probe of the preferred port is answered with the document of
    its [health] route, which names no workspace, discovery for any
    workspace answers [false]; the port being held, it returns the one the
    system assigns. *)
Theorem claude_relay_never_reused :
  forall (m : Cli.machine) (W : string),
    answered_with health (Cli.urlopen_health m Cli.PROXY_PORT) ->
    (forall port running,
       Cli.find_proxy_port m W = inr (port, running) -> running = false) /\
    (forall port,
       Cli.bind m Cli.PROXY_PORT = None -> Cli.bind m 0 = Some port ->
       Cli.find_proxy_port m W = inr (port, false)).
Proof.
  intros m W [j [Hbody Hprobe]].
  unfold health, jsonify in Hbody. cbn in Hbody. injection Hbody as <-.
  unfold Cli.find_proxy_port. rewrite Hprobe. cbn.
  split.
  - intros port running.
    destruct (Cli.bind m Cli.PROXY_PORT); [intro H; now injection H as _ <- |].
    destruct (Cli.bind m 0); [intro H; now injection H as _ <- | discriminate].
  - intros port Hheld Hany. now rewrite Hheld, Hany.
Qed.

Lemma claude_relay_never_reused_witness :
  Cli.find_proxy_port Cases.machine_with_claude_relay Scenario.workspace
    = inr (49153, false).
Proof.
  destruct (claude_relay_never_reused Cases.machine_with_claude_relay
              Scenario.workspace) as [_ Hassigned].
  - exists (JObj [("status", JStr "ok")]). split; reflexivity.
  - exact (Hassigned 49153 eq_refl eq_refl).
Defined.

(** ** Beyond the ten claims: the launchers *)

Lemma npm_package_nonempty (command package : string) :
  lookup command Launcher.NPM_PACKAGES = Some package ->
  is_empty package = false.
Proof.
  unfold Launcher.NPM_PACKAGES. cbn [lookup].
  repeat match goal with
         | |- context [String.eqb ?a ?b] => destruct (String.eqb a b)
         end;
    intro H; try discriminate H; now injection H as <-.
Qed.

(** X16: [ensure_cli_installed] does nothing at all when the command is
    on the path.  Otherwise it returns only after [npm install -g] of the
    command's package has exited 0; it runs nothing but that one install,
    with a timeout of 120 seconds, and only for a command with a known
    package and with [npm] on the path; and when it ends the process the
    exit code is 1. *)
Theorem ensure_cli_installed_outcome :
  forall (sys : Launcher.system) (command : string),
    let r := Launcher.ensure_cli_installed sys command in
    (Launcher.which sys command = true -> r = ([], Launcher.Returned tt)) /\
    (snd r = Launcher.Returned tt <->
       Launcher.which sys command = true \/
       exists package out,
         lookup command Launcher.NPM_PACKAGES = Some package /\
         Launcher.which sys "npm" = true /\
         Launcher.subprocess_run sys (npm_install package)
           = Launcher.RunExited 0 out) /\
    (runs (fst r) = [] \/
     exists package,
       lookup command Launcher.NPM_PACKAGES = Some package /\
       Launcher.which sys command = false /\
       Launcher.which sys "npm" = true /\
       runs (fst r) = [(npm_install package, 120)]) /\
    (forall code, snd r = Launcher.Exited code -> code = 1).
Proof.
  intros sys command. cbv zeta. unfold Launcher.ensure_cli_installed.
  destruct (Launcher.which sys command) eqn:Hwhich.
  { split; [reflexivity | split; [| split]].
    - split; auto.
    - left. reflexivity.
    - intros code H. discriminate H. }
  destruct (lookup command Launcher.NPM_PACKAGES) as [package |] eqn:Hpackage.
  2:{ cbn. split; [intro H; discriminate H | split; [| split]].
      - split; [intro H; discriminate H |].
        intros [H | [package [out [H _]]]]; discriminate H.
      - left. reflexivity.
      - intros code H. now injection H as <-. }
  rewrite (npm_package_nonempty command package Hpackage).
  destruct (Launcher.which sys "npm") eqn:Hnpm; cbn [negb].
  2:{ cbn. split; [intro H; discriminate H | split; [| split]].
      - split; [intro H; discriminate H |].
        intros [H | [package' [out [_ [H _]]]]]; discriminate H.
      - left. reflexivity.
      - intros code H. now injection H as <-. }
  unfold Launcher.bind, Launcher.print, Launcher.run, Launcher.sys_exit,
    Launcher.raise. cbn [fst snd].
  fold (npm_install package).
  destruct (Launcher.subprocess_run sys (npm_install package))
    as [x | returncode out] eqn:Hrun.
  - assert (Hno : forall package0 out,
              Some package = Some package0 ->
              Launcher.subprocess_run sys (npm_install package0)
                = Launcher.RunExited 0 out -> False).
    { intros package0 out Hp H. injection Hp as <-. rewrite Hrun in H. discriminate H. }
    split; [intro H; discriminate H | split; [| split]].
    + split.
      * destruct x; cbn; intro H; discriminate H.
      * intros [H | [package0 [out [Hp [_ H]]]]]; [discriminate H |].
        exfalso. exact (Hno package0 out Hp H).
    + right. exists package. destruct x; cbn; auto.
    + intros code. destruct x; cbn; intro H; try discriminate H.
      now injection H as <-.
  - destruct (returncode =? 0) eqn:Hcode; cbn [negb].
    + apply Z.eqb_eq in Hcode. subst returncode.
      split; [intro H; discriminate H | split; [| split]].
      * split; [| reflexivity]. intros _. right. exists package, out. auto.
      * right. exists package. cbn. auto.
      * intros code H. discriminate H.
    + apply Z.eqb_neq in Hcode.
      split; [intro H; discriminate H | split; [| split]].
      * split; [intro H; discriminate H |].
        intros [H | [package0 [out0 [Hp [_ H]]]]]; [discriminate H |].
        injection Hp as <-. rewrite Hrun in H. injection H as H _. contradiction.
      * right. exists package. cbn. auto.
      * intros code H. now injection H as <-.
Qed.

Lemma ensure_cli_installed_outcome_witness :
  runs (fst (Launcher.ensure_cli_installed Cases.workstation "gemini"))
    = [(["npm"; "install"; "-g"; "@google/gemini-cli"], 120)] /\
  snd (Launcher.ensure_cli_installed Cases.workstation "gemini")
    = Launcher.Returned tt /\
  Launcher.ensure_cli_installed Cases.workstation "npm" = ([], Launcher.Returned tt).
Proof.
  destruct (ensure_cli_installed_outcome Cases.workstation "gemini")
    as [_ [[_ Hreturns] _]].
  destruct (ensure_cli_installed_outcome Cases.workstation "npm")
    as [Hfound _].
  split; [reflexivity | split].
  - apply Hreturns. right. eexists _, _. repeat split.
  - apply Hfound. reflexivity.
Defined.

Lemma launcher_static_token (sys : Launcher.system) :
  (override_set sys -> exists t, Launcher.static_token sys = Some t /\ t <> EmptyString
       /\ Launcher.environ_DATABRICKS_TOKEN sys = Some t) /\
  (~ override_set sys -> Launcher.static_token sys = None).
Proof.
  unfold override_set, Launcher.static_token. split.
  - intros [t [Henv Hne]]. rewrite Henv. exists t.
    destruct t; [congruence | auto].
  - intro Hnot. destruct (Launcher.environ_DATABRICKS_TOKEN sys) as [t |]; [| reflexivity].
    destruct t as [| c t']; [reflexivity |].
    exfalso. apply Hnot. eexists. split; [reflexivity | discriminate].
Qed.

Lemma session_token_found (sys : Launcher.system) (host : string) (token : json) :
  (Launcher.session_token (Launcher.subprocess_run sys (auth_token host)) = inr token /\
   truthy token = true)
  <-> has_session sys host token.
Proof.
  unfold has_session, Launcher.session_token. split.
  - intros [Hfound Htruthy].
    destruct (Launcher.subprocess_run sys (auth_token host)) as [x | code out].
    + injection Hfound as <-. discriminate Htruthy.
    + destruct (code =? 0) eqn:Hcode.
      2:{ injection Hfound as <-. discriminate Htruthy. }
      apply Z.eqb_eq in Hcode. subst code.
      destruct out as [e | data]; [discriminate Hfound |].
      destruct data as [| b | z | q | s | l | d]; try discriminate Hfound.
      cbn [get] in Hfound. injection Hfound as Hfound.
      exists d. split; [reflexivity |].
      destruct (lookup "access_token" d) as [v |].
      * subst v. auto.
      * subst token. discriminate Htruthy.
  - intros [d [-> [Hlookup Htruthy]]]. cbn. rewrite Hlookup. auto.
Qed.


Lemma runs_app (a b : list Launcher.event) :
  runs (a ++ b) = (runs a ++ runs b)%list.
Proof.
  induction a as [| [text | argv timeout] a IH]; cbn; [reflexivity | exact IH |].
  now rewrite IH.
Qed.

Lemma login_facts (sys : Launcher.system) (host : string) :
  runs (fst (Launcher.login sys host)) = [(auth_login host, 120)] /\
  (snd (Launcher.login sys host) = Launcher.Returned tt <->
     exists out, Launcher.subprocess_run sys (auth_login host) = Launcher.RunExited 0 out) /\
  (forall code, snd (Launcher.login sys host) = Launcher.Exited code -> code = 1).
Proof.
  unfold Launcher.login, Launcher.bind, Launcher.print, Launcher.run,
    Launcher.sys_exit, Launcher.raise. cbn [fst snd].
  fold (auth_login host).
  destruct (Launcher.subprocess_run sys (auth_login host))
    as [x | code out] eqn:Hrun.
  - split; [destruct x; reflexivity | split].
    + split; [destruct x; cbn; intro H; discriminate H |].
      intros [out H]. discriminate H.
    + intros c. destruct x; cbn; intro H; try discriminate H.
      now injection H as <-.
  - destruct (code =? 0) eqn:Hcode; cbn [negb].
    + apply Z.eqb_eq in Hcode. subst code.
      split; [reflexivity | split].
      * split; [eauto | reflexivity].
      * intros c H. discriminate H.
    + apply Z.eqb_neq in Hcode.
      split; [reflexivity | split].
      * split; [intro H; discriminate H |].
        intros [out' H]. injection H as H _. contradiction.
      * intros c H. now injection H as <-.
Qed.

Lemma found_session (sys : Launcher.system) (host : string) :
  found sys host = true <-> exists token, has_session sys host token.
Proof.
  unfold found. split.
  - destruct (Launcher.session_token _) as [e | token] eqn:Hfound; [discriminate |].
    intro Htruthy. exists token. apply session_token_found. auto.
  - intros [token H]. apply session_token_found in H as [Hfound Htruthy].
    now rewrite Hfound.
Qed.

Lemma ensure_databricks_auth_unset (sys : Launcher.system) (host : string) :
  Launcher.static_token sys = None ->
  Launcher.ensure_databricks_auth sys host =
    let head :=
      [Launcher.Printed ("No DATABRICKS_TOKEN set. Checking Databricks CLI auth for "
                         ++ host ++ "...");
       Launcher.Ran (auth_token host) 10] in
    match Launcher.subprocess_run sys (auth_token host) with
    | Launcher.RunRaised Launcher.FileNotFoundError =>
        ((head ++ [Launcher.Printed
           "ERROR: 'databricks' CLI not found. Install it or set DATABRICKS_TOKEN."])%list,
         Launcher.Exited 1)
    | _ =>
        if found sys host
        then ((head ++ [Launcher.Printed "Found valid Databricks CLI session."])%list,
              Launcher.Returned tt)
        else ((head ++ fst (Launcher.login sys host))%list,
              snd (Launcher.login sys host))
    end.
Proof.
  intro Hstatic. unfold Launcher.ensure_databricks_auth, found. rewrite Hstatic.
  unfold Launcher.bind, Launcher.print, Launcher.run, Launcher.sys_exit.
  cbn [fst snd]. fold (auth_token host).
  destruct (Launcher.subprocess_run sys (auth_token host)) as [[| |] | code out].
  - reflexivity.
  - reflexivity.
  - reflexivity.
  - destruct (Launcher.session_token (Launcher.RunExited code out))
      as [e | token]; [reflexivity |].
    destruct (truthy token); reflexivity.
Qed.

(** X17: [ensure_databricks_auth] with the override set prints one line
    and runs nothing.  Without it, it runs [databricks auth token] once
    (timeout 10) and then [databricks auth login] (timeout 120) exactly when
    the CLI was found and no session came back; it returns exactly when a
    session came back or that login exited 0; and when it ends the process
    the exit code is 1. *)
Theorem ensure_databricks_auth_outcome :
  forall (sys : Launcher.system) (host : string),
    let r := Launcher.ensure_databricks_auth sys host in
    (override_set sys ->
       r = ([Launcher.Printed "Using DATABRICKS_TOKEN from environment."],
            Launcher.Returned tt)) /\
    (~ override_set sys ->
       (runs (fst r) = [(auth_token host, 10)] \/
        runs (fst r) = [(auth_token host, 10); (auth_login host, 120)]) /\
       (In (auth_login host, 120) (runs (fst r)) <->
          Launcher.subprocess_run sys (auth_token host)
            <> Launcher.RunRaised Launcher.FileNotFoundError /\
          ~ exists token, has_session sys host token) /\
       (snd r = Launcher.Returned tt <->
          (exists token, has_session sys host token) \/
          (Launcher.subprocess_run sys (auth_token host)
             <> Launcher.RunRaised Launcher.FileNotFoundError /\
           exists out,
             Launcher.subprocess_run sys (auth_login host) = Launcher.RunExited 0 out))) /\
    (forall code, snd r = Launcher.Exited code -> code = 1).
Proof.
  intros sys host. cbv zeta.
  destruct (launcher_static_token sys) as [Hset Hunset].
  split; [| split].
  - intros Hover. destruct (Hset Hover) as [t [Hstatic _]].
    unfold Launcher.ensure_databricks_auth. now rewrite Hstatic.
  - intros Hnot. rewrite (ensure_databricks_auth_unset sys host (Hunset Hnot)).
    cbv zeta.
    destruct (login_facts sys host) as [Hruns [Hreturns _]].
    pose proof (found_session sys host) as Hfound.
    assert (Hshape :
      forall x, Launcher.subprocess_run sys (auth_token host) = Launcher.RunRaised x ->
                found sys host = false).
    { intros x Hx. unfold found. now rewrite Hx. }
    assert (Hlogin : In (auth_login host, 120) [(auth_token host, 10)] -> False).
    { intros [H | []]. discriminate H. }
    destruct (Launcher.subprocess_run sys (auth_token host)) as [x | code out] eqn:Hrun.
    + assert (Hnone : found sys host = false) by (unfold found; now rewrite Hrun).
      assert (Hnosession : ~ exists token, has_session sys host token).
      { intro H. apply Hfound in H. congruence. }
      destruct x; try rewrite Hnone; cbn [fst snd]; rewrite ?runs_app, ?Hruns; cbn.
      * split; [auto | split].
        -- split; [intro H; exfalso; exact (Hlogin H) | intros [H _]; congruence].
        -- split; [intro H; discriminate H |].
           intros [H | [H _]]; [contradiction | congruence].
      * split; [auto | split].
        -- split; [intros _; split; [discriminate | exact Hnosession] | auto].
        -- rewrite Hreturns. split; [intro H; right; split; [discriminate | exact H] |].
           intros [H | [_ H]]; [contradiction | exact H].
      * split; [auto | split].
        -- split; [intros _; split; [discriminate | exact Hnosession] | auto].
        -- rewrite Hreturns. split; [intro H; right; split; [discriminate | exact H] |].
           intros [H | [_ H]]; [contradiction | exact H].
    + destruct (found sys host) eqn:Hyes; cbn [fst snd]; rewrite ?runs_app, ?Hruns; cbn.
      * assert (Hsession : exists token, has_session sys host token) by (now apply Hfound).
        split; [auto | split].
        -- split; [intro H; exfalso; exact (Hlogin H) | intros [_ H]; contradiction].
        -- split; auto.
      * assert (Hnosession : ~ exists token, has_session sys host token).
        { intro H. apply Hfound in H. congruence. }
        split; [auto | split].
        -- split; [intros _; split; [discriminate | exact Hnosession] | auto].
        -- rewrite Hreturns. split; [intro H; right; split; [discriminate | exact H] |].
           intros [H | [_ H]]; [contradiction | exact H].
  - intros c.
    destruct (Launcher.static_token sys) as [t |] eqn:Hstatic.
    + unfold Launcher.ensure_databricks_auth. rewrite Hstatic. intro H. discriminate H.
    + rewrite (ensure_databricks_auth_unset sys host Hstatic). cbv zeta.
      destruct (login_facts sys host) as [_ [_ Hexit]].
      destruct (Launcher.subprocess_run sys (auth_token host)) as [[| |] | code out];
        try (destruct (found sys host)); cbn [snd]; try (intro H; discriminate H);
        try exact (Hexit c).
      all: intro H; now injection H as <-.
Qed.

Lemma ensure_databricks_auth_outcome_witness :
  runs (fst (Launcher.ensure_databricks_auth Cases.logged_out_machine Scenario.workspace))
    = [(auth_token Scenario.workspace, 10); (auth_login Scenario.workspace, 120)] /\
  snd (Launcher.ensure_databricks_auth Cases.logged_out_machine Scenario.workspace)
    = Launcher.Returned tt.
Proof.
  assert (Hunset : ~ override_set Cases.logged_out_machine).
  { intros [t [H _]]. discriminate H. }
  destruct (ensure_databricks_auth_outcome Cases.logged_out_machine Scenario.workspace)
    as [_ [Hwithout _]].
  destruct (Hwithout Hunset) as [_ [_ [_ Hreturns]]].
  split; [reflexivity |].
  apply Hreturns. right. split; [discriminate | eexists; reflexivity].
Defined.

Lemma launcher_token_unset (sys : Launcher.system) (host : string) :
  Launcher.static_token sys = None ->
  Launcher.get_databricks_token sys host =
    ([Launcher.Ran (auth_token host) 10],
     Launcher.Returned
       match Launcher.session_token (Launcher.subprocess_run sys (auth_token host)) with
       | inr token => if truthy token then token else JNull
       | inl _ => JNull
       end).
Proof.
  intro Hstatic. unfold Launcher.get_databricks_token. rewrite Hstatic.
  unfold Launcher.bind, Launcher.run, Launcher.ret. cbn [fst snd].
  fold (auth_token host).
  destruct (Launcher.session_token _) as [e | token]; [reflexivity |].
  destruct (truthy token); reflexivity.
Qed.

(** X18: the launchers' [get_databricks_token] always returns, [None]
    or a true value.  With the override set it returns the override and
    runs nothing; without it, it runs [databricks auth token] once (timeout
    10) and returns a true token exactly when that run exited 0 and printed
    an object holding it, [None] in every other case. *)
Theorem launcher_token_outcome :
  forall (sys : Launcher.system) (host : string),
    let r := Launcher.get_databricks_token sys host in
    (exists v, snd r = Launcher.Returned v /\ (v = JNull \/ truthy v = true)) /\
    (forall t, Launcher.environ_DATABRICKS_TOKEN sys = Some t -> t <> EmptyString ->
       r = ([], Launcher.Returned (JStr t))) /\
    (~ override_set sys ->
       runs (fst r) = [(auth_token host, 10)] /\
       forall token,
         (snd r = Launcher.Returned token /\ truthy token = true)
         <-> has_session sys host token).
Proof.
  intros sys host. cbv zeta.
  destruct (launcher_static_token sys) as [Hset Hunset].
  split; [| split].
  - destruct (Launcher.static_token sys) as [t |] eqn:Hstatic.
    + unfold Launcher.get_databricks_token. rewrite Hstatic.
      exists (JStr t). split; [reflexivity | right].
      unfold Launcher.static_token in Hstatic.
      destruct (Launcher.environ_DATABRICKS_TOKEN sys) as [t' |]; [| discriminate].
      destruct t' as [| c t'']; cbn in Hstatic; [discriminate |].
      now injection Hstatic as <-.
    + rewrite (launcher_token_unset sys host Hstatic). cbn [snd].
      eexists. split; [reflexivity |].
      destruct (Launcher.session_token _) as [e | token]; [auto |].
      destruct (truthy token) eqn:Htruthy; auto.
  - intros t Henv Hne.
    destruct Hset as [t' [Hstatic [_ Henv']]]; [exists t; auto |].
    rewrite Henv in Henv'. injection Henv' as <-.
    unfold Launcher.get_databricks_token. now rewrite Hstatic.
  - intros Hnot. rewrite (launcher_token_unset sys host (Hunset Hnot)).
    cbn [fst snd]. split; [reflexivity |].
    intros token. rewrite <- session_token_found.
    destruct (Launcher.session_token _) as [e | found_token].
    + split; [intros [H Htruthy] | intros [H _]; discriminate H].
      injection H as <-. discriminate Htruthy.
    + destruct (truthy found_token) eqn:Hfound.
      * split; [intros [H Htruthy] | intros [H Htruthy]].
        -- injection H as <-. auto.
        -- injection H as <-. auto.
      * split; [intros [H Htruthy] | intros [H Htruthy]].
        -- injection H as <-. discriminate Htruthy.
        -- injection H as <-. congruence.
Qed.

Lemma launcher_token_outcome_witness :
  runs (fst (Launcher.get_databricks_token Cases.workstation Scenario.workspace))
    = [(auth_token Scenario.workspace, 10)] /\
  has_session Cases.workstation Scenario.workspace (JStr "oauth-1").
Proof.
  assert (Hunset : ~ override_set Cases.workstation).
  { intros [t [H _]]. discriminate H. }
  destruct (launcher_token_outcome Cases.workstation Scenario.workspace)
    as [_ [_ Hwithout]].
  destruct (Hwithout Hunset) as [Hruns Hiff].
  split; [exact Hruns |].
  apply Hiff. split; reflexivity.
Defined.

(** *** Waiting for the relay *)

Lemma wait_loop_answers (p : Launcher.polling) (port : Z) (deadline : Q) :
  forall fuel n answer probes,
    Launcher.wait_loop p port deadline fuel n = Some (answer, probes) ->
    (forall k, (k < probes)%nat ->
       (Launcher.time_time p (S (n + k)) < deadline)%Q) /\
    (forall k, (S k < probes)%nat -> Launcher.urlopen_ok p port (n + k) = false) /\
    (answer = true ->
       exists k, probes = S k /\ Launcher.urlopen_ok p port (n + k) = true) /\
    (answer = false ->
       ~ (Launcher.time_time p (S (n + probes)) < deadline)%Q /\
       forall k, (k < probes)%nat -> Launcher.urlopen_ok p port (n + k) = false).
Proof.
  induction fuel as [| fuel IH]; intros n answer probes; [discriminate |].
  cbn [Launcher.wait_loop].
  destruct (Qltb (Launcher.time_time p (S n)) deadline) eqn:Htest.
  - apply Qltb_lt in Htest.
    destruct (Launcher.urlopen_ok p port n) eqn:Hprobe.
    + intro H. injection H as <- <-.
      split; [| split; [| split]].
      * intros k Hk. assert (k = 0%nat) by lia. subst k. now rewrite Nat.add_0_r.
      * intros k Hk. lia.
      * intros _. exists 0%nat. rewrite Nat.add_0_r. auto.
      * discriminate.
    + destruct (Launcher.wait_loop p port deadline fuel (S n)) as [[a k] |] eqn:Hrest;
        [| discriminate].
      intro H. injection H as <- <-.
      destruct (IH (S n) a k Hrest) as [Hbefore [Hfailed [Htrue Hfalse]]].
      split; [| split; [| split]].
      * intros [| j] Hj; [now rewrite Nat.add_0_r |].
        replace (n + S j)%nat with (S n + j)%nat by lia. apply Hbefore. lia.
      * intros [| j] Hj; [now rewrite Nat.add_0_r |].
        replace (n + S j)%nat with (S n + j)%nat by lia. apply Hfailed. lia.
      * intro Ha. destruct (Htrue Ha) as [j [-> Hok]].
        exists (S j). split; [reflexivity |].
        now replace (n + S j)%nat with (S n + j)%nat by lia.
      * intro Ha. destruct (Hfalse Ha) as [Hpast Hall]. split.
        -- now replace (n + S k)%nat with (S n + k)%nat by lia.
        -- intros [| j] Hj; [now rewrite Nat.add_0_r |].
           replace (n + S j)%nat with (S n + j)%nat by lia. apply Hall. lia.
  - intro H. injection H as <- <-.
    assert (Hpast : ~ (Launcher.time_time p (S n) < deadline)%Q).
    { intro Hlt. apply Qltb_lt in Hlt. congruence. }
    split; [| split; [| split]].
    + intros k Hk. lia.
    + intros k Hk. lia.
    + discriminate.
    + intros _. rewrite Nat.add_0_r. split; [exact Hpast |]. intros k Hk. lia.
Qed.

Lemma inject_nat_succ (n : nat) :
  (inject_Z (Z.of_nat (S n)) == inject_Z (Z.of_nat n) + 1)%Q.
Proof.
  rewrite Nat2Z.inj_succ. unfold Z.succ. now rewrite inject_Z_plus.
Qed.

Lemma steady_clock_advances (p : Launcher.polling) :
  steady_clock p ->
  forall n,
    (Launcher.time_time p 0 + inject_Z (Z.of_nat n) * (1 # 5)
       <= Launcher.time_time p (S n))%Q.
Proof.
  intros [Hfirst Hstep]. induction n as [| n IH].
  - change (inject_Z (Z.of_nat 0)) with 0%Q. lra.
  - specialize (Hstep n). rewrite inject_nat_succ. lra.
Qed.

Lemma wait_loop_ends (p : Launcher.polling) (port : Z) (timeout : Q) (N : nat) :
  steady_clock p ->
  (timeout <= inject_Z (Z.of_nat N) * (1 # 5))%Q ->
  forall fuel n,
    (n <= N)%nat -> (N - n < fuel)%nat ->
    exists answer probes,
      Launcher.wait_loop p port (Launcher.time_time p 0 + timeout) fuel n
        = Some (answer, probes) /\
      (n + probes <= N)%nat.
Proof.
  intros Hclock Hbound.
  induction fuel as [| fuel IH]; intros n Hn Hfuel; [lia |].
  cbn [Launcher.wait_loop].
  destruct (Qltb (Launcher.time_time p (S n)) (Launcher.time_time p 0 + timeout)) eqn:Htest.
  - apply Qltb_lt in Htest.
    assert (Hless : (n < N)%nat).
    { destruct (Nat.eq_dec n N) as [-> | Hne]; [| lia].
      pose proof (steady_clock_advances p Hclock N). lra. }
    destruct (Launcher.urlopen_ok p port n).
    + exists true, 1%nat. split; [reflexivity | lia].
    + destruct (IH (S n)) as [a [k [Hrest Hk]]]; [lia | lia |].
      rewrite Hrest. exists a, (S k). split; [reflexivity | lia].
  - exists false, 0%nat. split; [reflexivity | lia].
Qed.

(** X20: what [wait_for_proxy] returns can be read back.  Every probe
    was sent after a clock reading earlier than the deadline.  [True] means
    the last probe got an answer and every probe before it failed; [False]
    means every probe failed and the clock then read the deadline or
    later. *)
Theorem wait_for_proxy_answer_read :
  forall (p : Launcher.polling) (port : Z) (timeout : Q) (fuel : nat)
         (answer : bool) (probes : nat),
    Launcher.wait_for_proxy p port timeout fuel = Some (answer, probes) ->
    let deadline := (Launcher.time_time p 0 + timeout)%Q in
    (forall k, (k < probes)%nat -> (Launcher.time_time p (S k) < deadline)%Q) /\
    (answer = true ->
       exists k,
         probes = S k /\
         Launcher.urlopen_ok p port k = true /\
         forall j, (j < k)%nat -> Launcher.urlopen_ok p port j = false) /\
    (answer = false ->
       ~ (Launcher.time_time p (S probes) < deadline)%Q /\
       forall k, (k < probes)%nat -> Launcher.urlopen_ok p port k = false).
Proof.
  intros p port timeout fuel answer probes Hrun deadline.
  unfold Launcher.wait_for_proxy in Hrun. fold deadline in Hrun.
  destruct (wait_loop_answers p port deadline fuel 0 answer probes Hrun)
    as [Hbefore [Hfailed [Htrue Hfalse]]].
  cbn [Nat.add] in *.
  split; [exact Hbefore | split; [| exact Hfalse]].
  intro Ha. destruct (Htrue Ha) as [k [-> Hok]].
  exists k. split; [reflexivity | split; [exact Hok |]].
  intros j Hj. apply Hfailed. lia.
Qed.

Lemma wait_for_proxy_answer_read_witness :
  exists k,
    3%nat = S k /\
    Launcher.urlopen_ok Cases.ticking 8000 k = true /\
    forall j, (j < k)%nat -> Launcher.urlopen_ok Cases.ticking 8000 j = false.
Proof.
  destruct (wait_for_proxy_answer_read Cases.ticking 8000 10 60 true 3 eq_refl)
    as [_ [Htrue _]].
  exact (Htrue eq_refl).
Defined.

(** X21: [wait_for_proxy] ends.  On a clock that advances at least 0.2
    seconds from one reading to the next, a call with timeout at most
    [N / 5] seconds returns after at most [N] probes: at most 50 for the
    default timeout of 10 seconds, and none at all for a timeout of zero or
    less. *)
Theorem wait_for_proxy_ends :
  forall (p : Launcher.polling) (port : Z) (timeout : Q) (N fuel : nat),
    steady_clock p ->
    (timeout <= inject_Z (Z.of_nat N) * (1 # 5))%Q ->
    (N < fuel)%nat ->
    exists answer probes,
      Launcher.wait_for_proxy p port timeout fuel = Some (answer, probes) /\
      (probes <= N)%nat.
Proof.
  intros p port timeout N fuel Hclock Hbound Hfuel.
  unfold Launcher.wait_for_proxy.
  destruct (wait_loop_ends p port timeout N Hclock Hbound fuel 0)
    as [answer [probes [Hrun Hprobes]]]; [lia | lia |].
  exists answer, probes. split; [exact Hrun | lia].
Qed.

Lemma ticking_is_steady : steady_clock Cases.ticking.
Proof.
  split.
  - unfold Qle. cbn. lia.
  - intro n. cbn [Cases.ticking Launcher.time_time].
    rewrite (inject_nat_succ (S n)). lra.
Qed.

Lemma wait_for_proxy_ends_witness :
  exists answer probes,
    Launcher.wait_for_proxy Cases.ticking 8000 10 51 = Some (answer, probes) /\
    (probes <= 50)%nat.
Proof.
  apply (wait_for_proxy_ends Cases.ticking 8000 10 50 51).
  - exact ticking_is_steady.
  - unfold Qle. cbn. lia.
  - lia.
Defined.

(** *** Arguments and the workspace *)

Lemma rstrip_slash_empty (s : string) :
  Launcher.rstrip_slash s = EmptyString -> exists k, s = slashes k.
Proof.
  induction s as [| c rest IH]; [exists 0%nat; reflexivity |].
  cbn [Launcher.rstrip_slash].
  destruct (is_empty (Launcher.rstrip_slash rest)) eqn:Hrest; cbn [andb].
  - destruct (Ascii.eqb c "/") eqn:Hc; [| discriminate].
    intros _. apply Ascii.eqb_eq in Hc. subst c.
    destruct (Launcher.rstrip_slash rest); [| discriminate].
    destruct (IH eq_refl) as [k ->]. exists (S k). reflexivity.
  - discriminate.
Qed.

Lemma rstrip_slash_splits (s : string) :
  exists k, s = Launcher.rstrip_slash s ++ slashes k.
Proof.
  induction s as [| c rest [k IH]]; [exists 0%nat; reflexivity |].
  cbn [Launcher.rstrip_slash].
  destruct (is_empty (Launcher.rstrip_slash rest)) eqn:Hrest; cbn [andb].
  - destruct (Launcher.rstrip_slash rest) eqn:Hr; [| discriminate].
    destruct (Ascii.eqb c "/") eqn:Hc.
    + apply Ascii.eqb_eq in Hc. subst c. exists (S k). cbn. now rewrite IH at 1.
    + exists k. cbn. now rewrite IH at 1.
  - exists k. cbn. now rewrite IH at 1.
Qed.

Lemma rstrip_slash_no_trailing (s : string) :
  ends_with_slash (Launcher.rstrip_slash s) = false.
Proof.
  induction s as [| c rest IH]; [reflexivity |].
  cbn [Launcher.rstrip_slash].
  destruct (Launcher.rstrip_slash rest) as [| c' rest'] eqn:Hr; cbn [is_empty andb].
  - destruct (Ascii.eqb c "/") eqn:Hc; [reflexivity |]. cbn. exact Hc.
  - cbn [ends_with_slash]. exact IH.
Qed.

Lemma rstrip_slash_slashes (k : nat) : Launcher.rstrip_slash (slashes k) = EmptyString.
Proof. induction k as [| k IH]; [reflexivity |]. cbn. now rewrite IH. Qed.

Lemma rstrip_slash_app_slashes (s : string) (k : nat) :
  Launcher.rstrip_slash (s ++ slashes k) = Launcher.rstrip_slash s.
Proof.
  induction s as [| c rest IH]; [apply rstrip_slash_slashes |].
  cbn. now rewrite IH.
Qed.

Lemma rstrip_slash_idempotent (s : string) :
  Launcher.rstrip_slash (Launcher.rstrip_slash s) = Launcher.rstrip_slash s.
Proof.
  destruct (rstrip_slash_splits s) as [k Hk].
  rewrite Hk at 2. now rewrite rstrip_slash_app_slashes.
Qed.

Lemma append_assoc (a b c : string) : (a ++ b) ++ c = a ++ (b ++ c).
Proof. induction a as [| x a IH]; [reflexivity |]. cbn. now rewrite IH. Qed.

Lemma prefix_app (p s t : string) :
  String.prefix p s = true -> String.prefix p (s ++ t) = true.
Proof.
  revert s. induction p as [| a p IH]; intros s;
    [intros _; destruct (s ++ t); reflexivity |].
  destruct s as [| c s]; [discriminate |]. cbn.
  destruct (ascii_dec a c); [apply IH | discriminate].
Qed.

Lemma has_scheme_app (s t : string) :
  Launcher.has_scheme s = true -> Launcher.has_scheme (s ++ t) = true.
Proof.
  unfold Launcher.has_scheme. intro H. apply orb_true_iff in H as [H | H].
  - now rewrite (prefix_app _ _ t H).
  - rewrite (prefix_app _ _ t H). apply orb_true_r.
Qed.

Lemma has_scheme_https (rest : string) :
  Launcher.has_scheme ("https://" ++ rest) = true.
Proof.
  apply (has_scheme_app "https://" rest). reflexivity.
Qed.

(** X22: the workspace [main] hands to a launch function never ends
    in a slash, and differs from what was given only by [https://] put in
    front when no scheme was named and by the trailing slashes removed. *)
Theorem normalized_workspace_shape :
  forall workspace : string,
    ends_with_slash (Launcher.normalize_workspace workspace) = false /\
    exists k,
      with_scheme workspace = Launcher.normalize_workspace workspace ++ slashes k.
Proof.
  intro workspace. unfold Launcher.normalize_workspace. fold (with_scheme workspace).
  split; [apply rstrip_slash_no_trailing | apply rstrip_slash_splits].
Qed.

(** X23: a bare host, the host followed by slashes, the host behind
    [https://], and both at once all normalize to the same workspace. *)
Theorem workspace_spellings_agree :
  forall (host : string) (k : nat),
    Launcher.has_scheme (host ++ slashes k) = false ->
    Launcher.normalize_workspace (host ++ slashes k) = Launcher.normalize_workspace host /\
    Launcher.normalize_workspace ("https://" ++ host) = Launcher.normalize_workspace host /\
    Launcher.normalize_workspace ("https://" ++ host ++ slashes k)
      = Launcher.normalize_workspace host.
Proof.
  intros host k Hbare.
  assert (Hhost : Launcher.has_scheme host = false).
  { destruct (Launcher.has_scheme host) eqn:H; [| reflexivity].
    rewrite (has_scheme_app host (slashes k) H) in Hbare. discriminate Hbare. }
  unfold Launcher.normalize_workspace.
  rewrite Hbare, Hhost, !has_scheme_https. split; [| split].
  - rewrite <- append_assoc. apply rstrip_slash_app_slashes.
  - reflexivity.
  - rewrite <- append_assoc. apply rstrip_slash_app_slashes.
Qed.

Lemma workspace_spellings_agree_witness :
  Launcher.normalize_workspace "adb-1234.cloud.databricks.com//"
    = Launcher.normalize_workspace "adb-1234.cloud.databricks.com" /\
  Launcher.normalize_workspace "https://adb-1234.cloud.databricks.com"
    = Launcher.normalize_workspace "adb-1234.cloud.databricks.com" /\
  Launcher.normalize_workspace "https://adb-1234.cloud.databricks.com//"
    = Launcher.normalize_workspace "adb-1234.cloud.databricks.com".
Proof.
  exact (workspace_spellings_agree "adb-1234.cloud.databricks.com" 2 eq_refl).
Defined.

(** X24: normalizing twice changes nothing more, provided the first
    result still begins with a scheme (a workspace made of slashes only,
    such as [/], loses it: see [lone_slash_loses_scheme]). *)
Theorem normalize_workspace_idempotent :
  forall workspace : string,
    Launcher.has_scheme (Launcher.normalize_workspace workspace) = true ->
    Launcher.normalize_workspace (Launcher.normalize_workspace workspace)
      = Launcher.normalize_workspace workspace.
Proof.
  intros workspace Hscheme.
  unfold Launcher.normalize_workspace at 1. rewrite Hscheme.
  unfold Launcher.normalize_workspace. apply rstrip_slash_idempotent.
Qed.

Lemma normalize_workspace_idempotent_witness :
  Launcher.normalize_workspace
    (Launcher.normalize_workspace "adb-1234.cloud.databricks.com/")
  = Launcher.normalize_workspace "adb-1234.cloud.databricks.com/".
Proof.
  apply (normalize_workspace_idempotent "adb-1234.cloud.databricks.com/").
  reflexivity.
Defined.

Example lone_slash_loses_scheme :
  Launcher.normalize_workspace "/" = "https:" /\
  Launcher.normalize_workspace (Launcher.normalize_workspace "/") = "https://https:".
Proof. split; reflexivity. Qed.

Lemma workspace_given_cases (given : option string) :
  (exists w, workspace_given given w) \/
  (given = None \/ given = Some EmptyString).
Proof.
  unfold workspace_given. destruct given as [[| c w] |]; auto.
  left. eexists. split; [reflexivity | discriminate].
Qed.

Lemma no_workspace_false (a : Launcher.arguments) :
  Launcher.no_workspace a = false <-> exists w, workspace_given (Launcher.arg_workspace a) w.
Proof.
  unfold Launcher.no_workspace, workspace_given.
  destruct (Launcher.arg_workspace a) as [[| c w] |]; split.
  - discriminate.
  - intros [w [H Hne]]. injection H as <-. congruence.
  - intros _. eexists. split; [reflexivity | discriminate].
  - reflexivity.
  - discriminate.
  - intros [w [H _]]. discriminate H.
Qed.

(** X25: when [main] of [databricks_coding_agent] reaches a launch
    function, [--workspace] was given a non-empty value, the function gets
    its normalization (no trailing slash) and the remaining arguments
    untouched, [--mode] was given only with the tool [claude], and the
    function is the one for the tool, [claude] without [--mode] going the
    direct way. *)
Theorem main_launches_on_normalized_workspace :
  forall (sys : Launcher.system) (a : Launcher.arguments)
         (target : Launcher.launch) (ws : string) (args : list string),
    snd (Launcher.main sys a) = Launcher.Returned (Launcher.Launch target ws args) ->
    fst (Launcher.main sys a) = [] /\
    args = Launcher.tool_args a /\
    ends_with_slash ws = false /\
    (exists w, workspace_given (Launcher.arg_workspace a) w /\
               ws = Launcher.normalize_workspace w) /\
    (Launcher.arg_mode a <> None -> Launcher.arg_tool a = Launcher.claude) /\
    (target = Launcher.launch_claude_max_mode <->
       Launcher.arg_mode a = Some Launcher.claude_max) /\
    (target = Launcher.launch_databricks_mode <->
       Launcher.arg_tool a = Launcher.claude /\
       Launcher.arg_mode a <> Some Launcher.claude_max) /\
    (target = Launcher.launch_gemini_mode <-> Launcher.arg_tool a = Launcher.gemini) /\
    (target = Launcher.launch_codex_mode <-> Launcher.arg_tool a = Launcher.codex).
Proof.
  intros sys a target ws args. unfold Launcher.main.
  destruct (Launcher.no_workspace a) eqn:Hws; cbn [andb].
  - destruct (Launcher.no_mode a); [| discriminate].
    unfold Launcher.bind.
    destruct (Launcher.ensure_cli_installed sys "claude") as [t [u | code | x]];
      discriminate.
  - apply no_workspace_false in Hws as [w Hgiven].
    assert (Hvalue : Launcher.arg_workspace a = Some w) by (destruct Hgiven; assumption).
    rewrite Hvalue. unfold Launcher.no_mode.
    destruct (Launcher.arg_tool a) eqn:Htool;
      destruct (Launcher.arg_mode a) as [[|] |] eqn:Hmode; cbn;
      try discriminate;
      intro H; injection H as <- <- <-;
      (split; [reflexivity |]); (split; [reflexivity |]);
      (split; [apply rstrip_slash_no_trailing |]);
      (split; [exists w; split;
                 [split; [reflexivity | destruct Hgiven; assumption] | reflexivity] |]);
      (split; [intros Hm; try reflexivity; try congruence |]);
      (split; [split; intro H; try reflexivity; try congruence; try discriminate H |]);
      (split; [split; [intro H; try discriminate H; split; congruence
                      | intros [H1 H2]; try reflexivity; try congruence] |]);
      (split; split; intro H; try reflexivity; try congruence; try discriminate H).
Qed.

Lemma main_launches_on_normalized_workspace_witness :
  ends_with_slash "https://adb-1234.cloud.databricks.com" = false /\
  exists w,
    workspace_given (Launcher.arg_workspace Cases.gemini_arguments) w /\
    "https://adb-1234.cloud.databricks.com" = Launcher.normalize_workspace w.
Proof.
  destruct (main_launches_on_normalized_workspace Cases.workstation
              Cases.gemini_arguments Launcher.launch_gemini_mode
              "https://adb-1234.cloud.databricks.com" ["-p"; "hi"] eq_refl)
    as [_ [_ [Hslash [Hgiven _]]]].
  split; [exact Hslash | exact Hgiven].
Defined.

(** X26: [main] of [databricks_coding_agent] stops in [parser.error]
    when [--mode] comes without a workspace, or with a tool other than
    [claude]; and with neither option it runs [claude] itself, after
    [ensure_cli_installed("claude")] and only if that returns. *)
Theorem main_rejects_what_it_cannot_launch :
  forall (sys : Launcher.system) (a : Launcher.arguments),
    (Launcher.no_workspace a = true -> Launcher.arg_mode a <> None ->
       Launcher.main sys a
         = ([], Launcher.Returned (Launcher.ParserError "--workspace is required."))) /\
    (Launcher.no_workspace a = false -> Launcher.arg_mode a <> None ->
       Launcher.arg_tool a <> Launcher.claude ->
       Launcher.main sys a
         = ([], Launcher.Returned
                  (Launcher.ParserError "--mode is only supported with --tool claude."))) /\
    (Launcher.no_workspace a = true -> Launcher.arg_mode a = None ->
       Launcher.main sys a
         = (fst (Launcher.ensure_cli_installed sys "claude"),
            match snd (Launcher.ensure_cli_installed sys "claude") with
            | Launcher.Returned _ =>
                Launcher.Returned (Launcher.ExecClaude ("claude" :: Launcher.tool_args a))
            | Launcher.Exited code => Launcher.Exited code
            | Launcher.Raised x => Launcher.Raised x
            end)).
Proof.
  intros sys a. unfold Launcher.main, Launcher.no_mode.
  split; [| split].
  - intros -> Hmode. destruct (Launcher.arg_mode a); [reflexivity | congruence].
  - intros -> Hmode Htool.
    destruct (Launcher.arg_mode a); [| congruence].
    destruct (Launcher.arg_tool a); [congruence | reflexivity | reflexivity].
  - intros -> ->. cbn [andb]. unfold Launcher.bind.
    destruct (Launcher.ensure_cli_installed sys "claude") as [t [u | code | x]];
      cbn; rewrite ?app_nil_r; reflexivity.
Qed.

Lemma claude_no_workspace_false (a : ClaudeLauncher.arguments) :
  ClaudeLauncher.no_workspace a = false
  <-> exists w, workspace_given (ClaudeLauncher.arg_workspace a) w.
Proof.
  unfold ClaudeLauncher.no_workspace, workspace_given.
  destruct (ClaudeLauncher.arg_workspace a) as [[| c w] |]; split.
  - discriminate.
  - intros [w [H Hne]]. injection H as <-. congruence.
  - intros _. eexists. split; [reflexivity | discriminate].
  - reflexivity.
  - discriminate.
  - intros [w [H _]]. discriminate H.
Qed.

Lemma main_rejects_what_it_cannot_launch_witness :
  Launcher.main Cases.workstation Cases.codex_with_mode
    = ([], Launcher.Returned
             (Launcher.ParserError "--mode is only supported with --tool claude.")).
Proof.
  destruct (main_rejects_what_it_cannot_launch Cases.workstation
              Cases.codex_with_mode) as [_ [Hmode _]].
  apply Hmode; [reflexivity | discriminate | discriminate].
Defined.

(** X27: [main] of [databricks_claude] reaches a launch function exactly
    when both [--workspace] (non-empty) and [--mode] are given, and then
    with the normalized workspace; with only one of them it stops in
    [parser.error]; with neither it runs [claude] itself; and it never
    comes to its end without one of these. *)
Theorem claude_main_needs_mode_and_workspace :
  forall a : ClaudeLauncher.arguments,
    (forall target ws args,
       ClaudeLauncher.main a = Launcher.Launch target ws args <->
       exists w m,
         workspace_given (ClaudeLauncher.arg_workspace a) w /\
         ClaudeLauncher.arg_mode a = Some m /\
         ws = Launcher.normalize_workspace w /\
         args = ClaudeLauncher.claude_args a /\
         target = launch_of m) /\
    (ClaudeLauncher.no_workspace a = true -> ClaudeLauncher.arg_mode a <> None ->
       ClaudeLauncher.main a
         = Launcher.ParserError "--workspace is required when --mode is specified.") /\
    (ClaudeLauncher.no_workspace a = false -> ClaudeLauncher.arg_mode a = None ->
       ClaudeLauncher.main a
         = Launcher.ParserError "--mode is required when --workspace is specified.") /\
    (ClaudeLauncher.no_workspace a = true -> ClaudeLauncher.arg_mode a = None ->
       ClaudeLauncher.main a
         = Launcher.ExecClaude ("claude" :: ClaudeLauncher.claude_args a)) /\
    ClaudeLauncher.main a <> Launcher.FallsThrough.
Proof.
  intro a.
  pose proof (claude_no_workspace_false a) as Hgiven.
  split; [| split; [| split; [| split]]].
  - intros target ws args. unfold ClaudeLauncher.main, ClaudeLauncher.no_mode.
    destruct (ClaudeLauncher.no_workspace a) eqn:Hws.
    + split.
      * destruct (ClaudeLauncher.arg_mode a); cbn; discriminate.
      * intros [w [m [Hw _]]].
        assert (Habsurd : true = false) by (apply Hgiven; eauto).
        discriminate Habsurd.
    + destruct (proj1 Hgiven eq_refl) as [w Hw]. pose proof Hw as [Hvalue Hne].
      destruct (ClaudeLauncher.arg_mode a) as [m |] eqn:Hmode; cbn.
      * rewrite Hvalue. split.
        -- destruct m; intro H; injection H as <- <- <-;
             exists w; eexists;
             (split; [split; [reflexivity | exact Hne] |]); auto.
        -- intros [w' [m' [[Hw' _] [Hm [-> [-> ->]]]]]].
           injection Hw' as <-. injection Hm as <-. destruct m; reflexivity.
      * split; [discriminate |].
        intros [w' [m' [_ [H _]]]]. discriminate H.
  - intros Hws Hmode. unfold ClaudeLauncher.main, ClaudeLauncher.no_mode.
    rewrite Hws. destruct (ClaudeLauncher.arg_mode a); [reflexivity | congruence].
  - intros Hws Hmode. unfold ClaudeLauncher.main, ClaudeLauncher.no_mode.
    now rewrite Hws, Hmode.
  - intros Hws Hmode. unfold ClaudeLauncher.main, ClaudeLauncher.no_mode.
    now rewrite Hws, Hmode.
  - unfold ClaudeLauncher.main, ClaudeLauncher.no_mode.
    destruct (ClaudeLauncher.no_workspace a);
      destruct (ClaudeLauncher.arg_mode a) as [[|] |]; cbn; discriminate.
Qed.

Lemma claude_main_needs_mode_and_workspace_witness :
  ClaudeLauncher.main Cases.claude_max_arguments
    = Launcher.Launch Launcher.launch_claude_max_mode "http://localhost:9000"
        ["--verbose"] /\
  ClaudeLauncher.main Cases.workspace_only
    = Launcher.ParserError "--mode is required when --workspace is specified.".
Proof.
  destruct (claude_main_needs_mode_and_workspace Cases.claude_max_arguments)
    as [Hlaunch _].
  destruct (claude_main_needs_mode_and_workspace Cases.workspace_only)
    as [_ [_ [Hmode _]]].
  split.
  - apply Hlaunch. exists "http://localhost:9000//", Launcher.claude_max.
    repeat split. discriminate.
  - apply Hmode; reflexivity.
Defined.
